(** * Z-Wave lights: a shallow embedding of
      homeassistant/components/light/zwave.py

    The platform is Python 3.  Its integers are unbounded ([Z]), its floats
    are IEEE 754 binary64 (the executable [spec_float] of the standard
    library at precision 53), its strings and byte strings are sequences of
    8-bit characters ([string]).  Methods mutate [self] and may raise, so
    they are functions from the entity to an outcome that carries the
    entity as the method left it. *)

From Stdlib Require Import ZArith List String Ascii Bool Lia SpecFloat HexString.
Import ListNotations.
Local Open Scope Z_scope.

(** ** The Python primitives the module relies on *)

Module Py.

(** The built-in exceptions that the operations used here can raise. *)
Inductive exn : Set :=
| ValueError
| TypeError
| OverflowError.

(** Binary64. *)
Definition float : Set := spec_float.
Definition prec : Z := 53.
Definition emax : Z := 1024.

Definition fmul : float -> float -> float := SFmul prec emax.
Definition fadd : float -> float -> float := SFadd prec emax.
Definition fdiv : float -> float -> float := SFdiv prec emax.

(** [float(z)]: the nearest double, ties to even (an infinity stands for
    the [OverflowError] of an integer too large to convert). *)
Definition float_of_Z (z : Z) : float := binary_normalize prec emax z 0 false.

(** [a / b] on two integers, [b] not zero: the quotient correctly rounded
    from the exact integers, not from their conversions. *)
Definition int_truediv (a b : Z) : float :=
  match a, b with
  | 0, _ => S754_zero (b <? 0)
  | _, 0 => S754_nan
  | _, _ =>
      let '(q, e, l) := SFdiv_core_binary prec emax (Z.abs a) 0 (Z.abs b) 0 in
      binary_round_aux prec emax (xorb (a <? 0) (b <? 0)) q e l
  end.

(** A Python number: [int] or [float]. *)
Inductive num : Set :=
| Int (z : Z)
| Float (f : float).

Definition is_inf (f : float) : bool :=
  match f with
  | S754_infinity _ => true
  | _ => false
  end.

(** [n / d] for a non-zero integer literal [d].  Integer operands that
    overflow the float range raise [OverflowError]. *)
Definition truediv_lit (n : num) (d : Z) : exn + float :=
  match n with
  | Int a =>
      let q := int_truediv a d in
      if is_inf q then inl OverflowError else inr q
  | Float f => inr (fdiv f (float_of_Z d))
  end.

(** The exact value of a finite float as [m * 2^e] with a signed [m]. *)
Definition finite_value (f : float) : option (Z * Z) :=
  match f with
  | S754_zero _ => Some (0, 0)
  | S754_finite s m e => Some (if s then Z.neg m else Z.pos m, e)
  | _ => None
  end.

(** [int(f)]: truncation toward zero; [ValueError] on a NaN and
    [OverflowError] on an infinity. *)
Definition int_of_float (f : float) : exn + Z :=
  match f with
  | S754_nan => inl ValueError
  | S754_infinity _ => inl OverflowError
  | S754_zero _ => inr 0
  | S754_finite s m e =>
      let a := if 0 <=? e then Z.pos m * 2 ^ e else Z.pos m / 2 ^ (- e) in
      inr (if s then - a else a)
  end.

(** [round(f, 0)]: the nearest integral float, ties to even, keeping the
    sign of a zero result; non-finite values are returned as they are. *)
Definition round0 (f : float) : float :=
  match f with
  | S754_finite s m e =>
      if 0 <=? e then f
      else
        let d := 2 ^ (- e) in
        let q := Z.pos m / d in
        let r := Z.pos m mod d in
        let q' :=
          match 2 * r ?= d with
          | Lt => q
          | Gt => q + 1
          | Eq => if Z.even q then q else q + 1
          end in
        match q' with
        | Z.pos p => binary_round prec emax s p 0
        | _ => S754_zero s
        end
  | _ => f
  end.

(** Comparison of numbers is exact, also between an [int] and a [float];
    a NaN is unordered. *)
Definition cmp_scaled (x y : Z * Z) : comparison :=
  let '(mx, ex) := x in
  let '(my, ey) := y in
  let e := Z.min ex ey in
  (mx * 2 ^ (ex - e)) ?= (my * 2 ^ (ey - e)).

Definition fcompare (x y : float) : option comparison :=
  match x, y with
  | S754_nan, _ | _, S754_nan => None
  | S754_infinity sx, S754_infinity sy =>
      Some (match sx, sy with
            | true, false => Lt
            | false, true => Gt
            | _, _ => Eq
            end)
  | S754_infinity s, _ => Some (if s then Lt else Gt)
  | _, S754_infinity s => Some (if s then Gt else Lt)
  | _, _ =>
      match finite_value x, finite_value y with
      | Some vx, Some vy => Some (cmp_scaled vx vy)
      | _, _ => None
      end
  end.

Definition compare (x y : num) : option comparison :=
  match x, y with
  | Int a, Int b => Some (a ?= b)
  | Int a, Float g =>
      match g with
      | S754_nan => None
      | S754_infinity s => Some (if s then Gt else Lt)
      | _ =>
          match finite_value g with
          | Some v => Some (cmp_scaled (a, 0) v)
          | None => None
          end
      end
  | Float f, Int b =>
      match f with
      | S754_nan => None
      | S754_infinity s => Some (if s then Lt else Gt)
      | _ =>
          match finite_value f with
          | Some v => Some (cmp_scaled v (b, 0))
          | None => None
          end
      end
  | Float f, Float g => fcompare f g
  end.

(** [x > y] and [x <= y]. *)
Definition gt (x y : num) : bool :=
  match compare x y with
  | Some Gt => true
  | _ => false
  end.


(** *** Strings *)

(** [s[i:j]] for non-negative [i <= j]: out-of-range bounds are clipped,
    never an error. *)
Definition slice (i j : nat) (s : string) : string := substring i (j - i) s.

(** A [str] is the string of its code points, one character of [string]
    for each: the strings of the model are those whose code points are
    below 256. *)

(** The characters [int()] skips around a numeral: the white space of its
    parser (tab to carriage return, and the blank), and the white space
    outside ASCII, which [int()] turns into blanks before it parses; below
    256 these are U+0085 and U+00A0.  The separators U+001C to U+001F are
    white space for [str.strip()], not for [int()]. *)
Definition is_space (c : ascii) : bool :=
  let n := Z.of_nat (nat_of_ascii c) in
  ((9 <=? n) && (n <=? 13)) || (n =? 32) || (n =? 133) || (n =? 160).

(** The characters that [str.strip()] removes: those for which
    [str.isspace()] holds. *)
Definition is_strip_space (c : ascii) : bool :=
  let n := Z.of_nat (nat_of_ascii c) in
  is_space c || ((28 <=? n) && (n <=? 31)) || (n =? 133) || (n =? 160).

Fixpoint lstrip (sp : ascii -> bool) (s : string) : string :=
  match s with
  | String c s' => if sp c then lstrip sp s' else s
  | EmptyString => EmptyString
  end.

Fixpoint rstrip (sp : ascii -> bool) (s : string) : string :=
  match s with
  | String c s' =>
      match rstrip sp s' with
      | EmptyString => if sp c then EmptyString else String c EmptyString
      | t => String c t
      end
  | EmptyString => EmptyString
  end.

(** [s.strip()]. *)
Definition strip (s : string) : string :=
  rstrip is_strip_space (lstrip is_strip_space s).

(** Truth value of a string: non-empty. *)
Definition truthy (s : string) : bool :=
  match s with
  | EmptyString => false
  | String _ _ => true
  end.

Definition hex_digit (c : ascii) : option Z :=
  option_map Z.of_N (HexString.ascii_to_digit c).

(** The digits of a numeral: at least one, single underscores allowed
    between two digits only. *)
Fixpoint digits16 (s : string) (acc : Z) (after_digit : bool) : option Z :=
  match s with
  | EmptyString => if after_digit then Some acc else None
  | String c s' =>
      if Ascii.eqb c "_" then
        if after_digit then digits16 s' acc false else None
      else
        match hex_digit c with
        | Some d => digits16 s' (16 * acc + d) true
        | None => None
        end
  end.

(** [int(s, 16)]: surrounding white space, an optional sign, an optional
    [0x] or [0X] prefix (which one underscore may follow), then the digits.
    [None] is the [ValueError] of an invalid literal. *)
Definition int16 (s : string) : option Z :=
  let t := rstrip is_space (lstrip is_space s) in
  let '(neg, t) :=
    match t with
    | String "+" r => (false, r)
    | String "-" r => (true, r)
    | _ => (false, t)
    end in
  let t :=
    match t with
    | String "0" (String "x" (String "_" r))
    | String "0" (String "X" (String "_" r))
    | String "0" (String "x" r)
    | String "0" (String "X" r) => r
    | _ => t
    end in
  option_map (fun v => if neg then - v else v) (digits16 t 0 false).

(** [format(z, '02x')]: lower-case hexadecimal, zero-padded after the sign
    to a total width of two. *)
Definition hex (z : Z) : string :=
  match z with
  | Z.pos p => HexString.Raw.of_pos p ""
  | _ => "0"
  end.

Definition format_02x (z : Z) : string :=
  if z <? 0 then String "-" (hex (- z))
  else
    match hex z with
    | String c EmptyString => String "0" (String c EmptyString)
    | h => h
    end.

End Py.

(** ** Constants of the module *)

(** [STATE_ON] and [STATE_OFF] of [homeassistant.const]. *)
Inductive state_t : Set :=
| STATE_ON
| STATE_OFF.

Definition state_eqb (a b : state_t) : bool :=
  match a, b with
  | STATE_ON, STATE_ON | STATE_OFF, STATE_OFF => true
  | _, _ => false
  end.

Definition AEOTEC : Z := 0x86.
Definition AEOTEC_ZW098_LED_BULB : Z := 0x62.
Definition AEOTEC_ZW098_LED_BULB_LIGHT : Z * Z := (AEOTEC, AEOTEC_ZW098_LED_BULB).

Definition COLOR_CHANNEL_WARM_WHITE : Z := 0x01.
Definition COLOR_CHANNEL_COLD_WHITE : Z := 0x02.
Definition COLOR_CHANNEL_RED : Z := 0x04.
Definition COLOR_CHANNEL_GREEN : Z := 0x08.
Definition COLOR_CHANNEL_BLUE : Z := 0x10.

Definition WORKAROUND_ZW098 : string := "zw098".

(** The dict [DEVICE_MAPPINGS], in insertion order. *)
Definition DEVICE_MAPPINGS : list ((Z * Z) * string) :=
  [(AEOTEC_ZW098_LED_BULB_LIGHT, WORKAROUND_ZW098)].

Definition key_eqb (a b : Z * Z) : bool :=
  (fst a =? fst b) && (snd a =? snd b).

(** [DEVICE_MAPPINGS.get(key)]: [None] when [key not in DEVICE_MAPPINGS]. *)
Definition mapping (key : Z * Z) : option string :=
  option_map snd (find (fun kv => key_eqb (fst kv) key) DEVICE_MAPPINGS).

(** ** The objects *)

(** A value of the Z-Wave network: its id and its current [data]. *)
Record Value (A : Type) : Type := mkValue {
  value_id : Z;
  data : A
}.
Arguments mkValue {A} _ _.
Arguments value_id {A} _.
Arguments data {A} _.

(** [self.values]: the primary (multilevel switch) value always exists, the
    color value and the color-channels value may be missing ([None]). *)
Record Values : Type := mkValues {
  primary : Value Z;
  color : option (Value string);
  color_channels : option (Value Z)
}.

(** [self.node]: the identity strings of the device and its dimmer command.
    [dimmer_reply] is what [set_dimmer value_id level] answers;
    [dimmer_sent] records the commands issued so far, latest first. *)
Record Node : Type := mkNode {
  manufacturer_id : string;
  product_id : string;
  dimmer_reply : Z -> Z -> bool;
  dimmer_sent : list (Z * Z)
}.

(** The attributes of an entity.  A plain dimmer never sets the last
    three. *)
Record Entity : Type := mkEntity {
  node : Node;
  values : Values;
  _brightness : option Py.num;
  _state : option state_t;
  _delay : option Z;
  _refresh_value : bool;
  _zw098 : option Z;
  _refreshing : bool;
  _color_channels : option Z;
  _rgb : option (list Z);
  _ct : option Py.num
}.

Definition set_brightness (v : option Py.num) (s : Entity) : Entity :=
  mkEntity (node s) (values s) v (_state s) (_delay s) (_refresh_value s)
    (_zw098 s) (_refreshing s) (_color_channels s) (_rgb s) (_ct s).

Definition set_state (v : option state_t) (s : Entity) : Entity :=
  mkEntity (node s) (values s) (_brightness s) v (_delay s) (_refresh_value s)
    (_zw098 s) (_refreshing s) (_color_channels s) (_rgb s) (_ct s).

Definition set_delay (v : option Z) (s : Entity) : Entity :=
  mkEntity (node s) (values s) (_brightness s) (_state s) v (_refresh_value s)
    (_zw098 s) (_refreshing s) (_color_channels s) (_rgb s) (_ct s).

Definition set_refresh_value (v : bool) (s : Entity) : Entity :=
  mkEntity (node s) (values s) (_brightness s) (_state s) (_delay s) v
    (_zw098 s) (_refreshing s) (_color_channels s) (_rgb s) (_ct s).

Definition set_zw098 (v : option Z) (s : Entity) : Entity :=
  mkEntity (node s) (values s) (_brightness s) (_state s) (_delay s)
    (_refresh_value s) v (_refreshing s) (_color_channels s) (_rgb s) (_ct s).

Definition set_refreshing (v : bool) (s : Entity) : Entity :=
  mkEntity (node s) (values s) (_brightness s) (_state s) (_delay s)
    (_refresh_value s) (_zw098 s) v (_color_channels s) (_rgb s) (_ct s).

Definition set_color_channels (v : option Z) (s : Entity) : Entity :=
  mkEntity (node s) (values s) (_brightness s) (_state s) (_delay s)
    (_refresh_value s) (_zw098 s) (_refreshing s) v (_rgb s) (_ct s).

Definition set_rgb (v : option (list Z)) (s : Entity) : Entity :=
  mkEntity (node s) (values s) (_brightness s) (_state s) (_delay s)
    (_refresh_value s) (_zw098 s) (_refreshing s) (_color_channels s) v (_ct s).

Definition set_ct (v : option Py.num) (s : Entity) : Entity :=
  mkEntity (node s) (values s) (_brightness s) (_state s) (_delay s)
    (_refresh_value s) (_zw098 s) (_refreshing s) (_color_channels s) (_rgb s) v.

(** [self.values.color.data = payload], for a color value that exists. *)
Definition set_color_data (payload : string) (s : Entity) : Entity :=
  let vs := values s in
  let c := option_map (fun v => mkValue (value_id v) payload) (color vs) in
  mkEntity (node s) (mkValues (primary vs) c (color_channels vs))
    (_brightness s) (_state s) (_delay s) (_refresh_value s) (_zw098 s)
    (_refreshing s) (_color_channels s) (_rgb s) (_ct s).

(** The node notes a dimmer command. *)
Definition note_dimmer (vid level : Z) (s : Entity) : Entity :=
  let n := node s in
  mkEntity
    (mkNode (manufacturer_id n) (product_id n) (dimmer_reply n)
       ((vid, level) :: dimmer_sent n))
    (values s) (_brightness s) (_state s) (_delay s) (_refresh_value s)
    (_zw098 s) (_refreshing s) (_color_channels s) (_rgb s) (_ct s).

(** ** Methods: state and exceptions *)

(** How a method call ends: it returns [a], or raises [e]; either way
    [self] is left as [s]. *)
Inductive run (A : Type) : Type :=
| Ok (a : A) (s : Entity)
| Raise (e : Py.exn) (s : Entity).
Arguments Ok {A} _ _.
Arguments Raise {A} _ _.

Definition M (A : Type) : Type := Entity -> run A.

Definition ret {A} (a : A) : M A := fun s => Ok a s.

Definition bind {A B} (c : M A) (k : A -> M B) : M B :=
  fun s =>
    match c s with
    | Ok a s' => k a s'
    | Raise e s' => Raise e s'
    end.

Definition raise {A} (e : Py.exn) : M A := fun s => Raise e s.

Definition gets {A} (f : Entity -> A) : M A := fun s => Ok (f s) s.

Definition modify (f : Entity -> Entity) : M unit := fun s => Ok tt (f s).

(** A primitive that returns or raises. *)
Definition lift {A} (r : Py.exn + A) : M A :=
  match r with
  | inl e => raise e
  | inr a => ret a
  end.

(** [int(text, 16)] inside a method. *)
Definition int16 (text : string) : M Z :=
  match Py.int16 text with
  | Some z => ret z
  | None => raise Py.ValueError
  end.

Notation "x <- c ;; k" := (bind c (fun x => k))
  (at level 61, c at next level, right associativity).
Notation "c ;; k" := (bind c (fun _ => k))
  (at level 61, right associativity).

(** The entity a call leaves behind, however it ended. *)
Definition after {A} (r : run A) : Entity :=
  match r with
  | Ok _ s => s
  | Raise _ s => s
  end.

(** Truth value of [self._zw098] ([None] or [1]) and of an integer. *)
Definition nonzero (z : Z) : bool := negb (z =? 0).

Definition truthy (o : option Z) : bool :=
  match o with
  | Some z => nonzero z
  | None => false
  end.

(** [self.node.set_dimmer(self.values.primary.value_id, level)]. *)
Definition node_set_dimmer (level : Z) : M bool :=
  fun s =>
    let vid := value_id (primary (values s)) in
    Ok (dimmer_reply (node s) vid level) (note_dimmer vid level s).

(** ** The platform *)

Section Platform.

(** [homeassistant.util.color] is another module: its two integer bounds and
    its four conversions are taken as they are given. *)
Variables HASS_COLOR_MAX HASS_COLOR_MIN : Z.
Variable color_temperature_mired_to_kelvin : Py.num -> Py.num.
Variable color_temperature_to_rgb : Py.num -> list Py.num.
Variable color_rgb_to_rgbw : Z -> Z -> Z -> list Z.
Variable color_rgbw_to_rgb : Z -> Z -> Z -> Z -> list Z.

(** Midpoint color temperatures, computed once when the module loads. *)
Definition TEMP_MID_HASS : Py.num :=
  Py.Float (Py.fadd (Py.int_truediv (HASS_COLOR_MAX - HASS_COLOR_MIN) 2)
              (Py.float_of_Z HASS_COLOR_MIN)).

Definition TEMP_WARM_HASS : Py.num :=
  Py.Float (Py.fadd
              (Py.fmul (Py.int_truediv (HASS_COLOR_MAX - HASS_COLOR_MIN) 3)
                 (Py.float_of_Z 2))
              (Py.float_of_Z HASS_COLOR_MIN)).

Definition TEMP_COLD_HASS : Py.num :=
  Py.Float (Py.fadd (Py.int_truediv (HASS_COLOR_MAX - HASS_COLOR_MIN) 3)
              (Py.float_of_Z HASS_COLOR_MIN)).

(** [brightness_state(value)]. *)
Definition brightness_state (value : Value Z) : Py.exn + (Py.num * state_t) :=
  if data value >? 0 then
    match Py.truediv_lit (Py.Int (data value)) 99 with
    | inl e => inl e
    | inr q => inr (Py.Float (Py.round0 (Py.fmul q (Py.float_of_Z 255))), STATE_ON)
    end
  else inr (Py.Int 0, STATE_OFF).

(** The two classes; [update_properties] is dispatched on the class of
    [self]. *)
Inductive class : Set :=
| ZwaveDimmer
| ZwaveColorLight.

(** *** ZwaveDimmer *)

Definition ZwaveDimmer_update_properties : M unit :=
  vs <- gets values;;
  bs <- lift (brightness_state (primary vs));;
  modify (set_brightness (Some (fst bs)));;
  modify (set_state (Some (snd bs))).

Definition brightness (self : Entity) : option Py.num := _brightness self.

Definition is_on (self : Entity) : bool :=
  match _state self with
  | Some st => state_eqb st STATE_ON
  | None => false
  end.

(** The keyword arguments of [turn_on] that the platform reads; [None] is a
    key that is not in [kwargs]. *)
Record Kwargs : Type := mkKwargs {
  ATTR_BRIGHTNESS : option Py.num;
  ATTR_RGB_COLOR : option (list Z);
  ATTR_COLOR_TEMP : option Py.num
}.

Definition ZwaveDimmer_turn_on (kwargs : Kwargs) : M unit :=
  level <-
    match ATTR_BRIGHTNESS kwargs with
    | Some b =>
        modify (set_brightness (Some b));;
        q <- lift (Py.truediv_lit b 255);;
        lift (Py.int_of_float (Py.fmul q (Py.float_of_Z 99)))
    | None => ret 255
    end;;
  done <- node_set_dimmer level;;
  if done : bool then modify (set_state (Some STATE_ON)) else ret tt.

Definition ZwaveDimmer_turn_off : M unit :=
  done <- node_set_dimmer 0;;
  if done : bool then modify (set_state (Some STATE_OFF)) else ret tt.

(** *** ZwaveColorLight *)

(** [int(val)] for each element, in order. *)
Fixpoint ints (l : list Py.num) : Py.exn + list Z :=
  match l with
  | [] => inr []
  | v :: l' =>
      match (match v with
             | Py.Int z => inr z
             | Py.Float f => Py.int_of_float f
             end) with
      | inl e => inl e
      | inr z =>
          match ints l' with
          | inl e => inl e
          | inr zs => inr (z :: zs)
          end
      end
  end.

(** [ct_to_rgb(temp)]. *)
Definition ct_to_rgb (temp : Py.num) : Py.exn + list Z :=
  ints (color_temperature_to_rgb (color_temperature_mired_to_kelvin temp)).

(** [color_rgbw_to_rgb] applied to the unpacked [self._rgb] and [w=white];
    [self._rgb] is the parsed triple at both call sites. *)
Definition blend (rgb : list Z) (white : Z) : M (list Z) :=
  match rgb with
  | [r; g; b] => ret (color_rgbw_to_rgb r g b white)
  | _ => raise Py.TypeError
  end.

Definition ZwaveColorLight_update_properties : M unit :=
  ZwaveDimmer_update_properties;;
  vs <- gets values;;
  match color vs, color_channels vs with
  | None, _ => ret tt
  | _, None => ret tt
  | Some cv, Some chv =>
      let channels := data chv in
      modify (set_color_channels (Some channels));;
      let data := data cv in
      r <- int16 (Py.slice 1 3 data);;
      g <- int16 (Py.slice 3 5 data);;
      b <- int16 (Py.slice 5 7 data);;
      modify (set_rgb (Some [r; g; b]));;
      let index := 7%nat in
      wi <-
        (if nonzero (Z.land channels COLOR_CHANNEL_WARM_WHITE) then
           w <- int16 (Py.slice index (index + 2) data);;
           ret (w, (index + 2)%nat)
         else ret (0, index));;
      let '(warm_white, index) := wi in
      ci <-
        (if nonzero (Z.land channels COLOR_CHANNEL_COLD_WHITE) then
           c <- int16 (Py.slice index (index + 2) data);;
           ret (c, (index + 2)%nat)
         else ret (0, index));;
      let '(cold_white, index) := ci in
      zw098 <- gets _zw098;;
      (if truthy zw098 then
         if warm_white >? 0 then
           modify (set_ct (Some TEMP_WARM_HASS));;
           rgb <- lift (ct_to_rgb TEMP_WARM_HASS);;
           modify (set_rgb (Some rgb))
         else if cold_white >? 0 then
           modify (set_ct (Some TEMP_COLD_HASS));;
           rgb <- lift (ct_to_rgb TEMP_COLD_HASS);;
           modify (set_rgb (Some rgb))
         else
           modify (set_ct (Some TEMP_MID_HASS))
       else if nonzero (Z.land channels COLOR_CHANNEL_WARM_WHITE) then
         rgb <- blend [r; g; b] warm_white;;
         modify (set_rgb (Some rgb))
       else if nonzero (Z.land channels COLOR_CHANNEL_COLD_WHITE) then
         rgb <- blend [r; g; b] cold_white;;
         modify (set_rgb (Some rgb))
       else ret tt);;
      if negb (nonzero (Z.land channels COLOR_CHANNEL_RED)
               || nonzero (Z.land channels COLOR_CHANNEL_GREEN)
               || nonzero (Z.land channels COLOR_CHANNEL_BLUE))
      then modify (set_rgb None)
      else ret tt
  end.

Definition rgb_color (self : Entity) : option (list Z) := _rgb self.

Definition color_temp (self : Entity) : option Py.num := _ct self.

(** The loop [for colorval in ...: rgbw += format(colorval, '02x')]. *)
Definition append_hex (rgbw : string) (colorvals : list Z) : string :=
  fold_left (fun acc colorval => (acc ++ Py.format_02x colorval)%string)
    colorvals rgbw.

Definition ZwaveColorLight_turn_on (kwargs : Kwargs) : M unit :=
  rgbw <-
    match ATTR_COLOR_TEMP kwargs, ATTR_RGB_COLOR kwargs with
    | Some temp, _ =>
        zw098 <- gets _zw098;;
        if truthy zw098 then
          if Py.gt temp TEMP_MID_HASS then
            modify (set_ct (Some TEMP_WARM_HASS));;
            ret (Some "#000000ff00"%string)
          else
            modify (set_ct (Some TEMP_COLD_HASS));;
            ret (Some "#00000000ff"%string)
        else ret None
    | None, Some rgb =>
        modify (set_rgb (Some rgb));;
        zw098 <- gets _zw098;;
        white <-
          (if negb (truthy zw098) then
             channels <- gets _color_channels;;
             match channels with
             | Some ch =>
                 ret (nonzero (Z.land ch COLOR_CHANNEL_WARM_WHITE)
                      || nonzero (Z.land ch COLOR_CHANNEL_COLD_WHITE))
             | None => raise Py.TypeError
             end
           else ret false);;
        if white : bool then
          match rgb with
          | [r; g; b] =>
              ret (Some (append_hex "#" (color_rgb_to_rgbw r g b) ++ "00")%string)
          | _ => raise Py.TypeError
          end
        else ret (Some (append_hex "#" rgb ++ "0000")%string)
    | None, None => ret None
    end;;
  vs <- gets values;;
  match rgbw, color vs with
  | Some payload, Some _ =>
      if Py.truthy payload then modify (set_color_data payload) else ret tt
  | _, _ => ret tt
  end;;
  ZwaveDimmer_turn_on kwargs.

(** *** Construction *)

Definition update_properties (cls : class) : M unit :=
  match cls with
  | ZwaveDimmer => ZwaveDimmer_update_properties
  | ZwaveColorLight => ZwaveColorLight_update_properties
  end.

(** [zwave.ZWaveDeviceEntity.__init__] binds [self.values] and [self.node];
    no other attribute exists yet. *)
Definition ZWaveDeviceEntity_init (nd : Node) (vs : Values) : Entity :=
  mkEntity nd vs None None None false None false None None None.

Definition ZwaveDimmer_init (cls : class) (refresh : bool) (delay : option Z)
  : M unit :=
  modify (set_brightness None);;
  modify (set_state None);;
  modify (set_delay delay);;
  modify (set_refresh_value refresh);;
  modify (set_zw098 None);;
  nd <- gets node;;
  (if Py.truthy (Py.strip (manufacturer_id nd))
      && Py.truthy (Py.strip (product_id nd))
   then
     m <- int16 (manufacturer_id nd);;
     p <- int16 (product_id nd);;
     match mapping (m, p) with
     | Some w =>
         if String.eqb w WORKAROUND_ZW098 then modify (set_zw098 (Some 1))
         else ret tt
     | None => ret tt
     end
   else ret tt);;
  modify (set_refreshing false);;
  update_properties cls.

Definition ZwaveColorLight_init (refresh : bool) (delay : option Z) : M unit :=
  modify (set_color_channels None);;
  modify (set_rgb None);;
  modify (set_ct None);;
  ZwaveDimmer_init ZwaveColorLight refresh delay.

(** [ZwaveDimmer(values, refresh, delay)] and
    [ZwaveColorLight(values, refresh, delay)] on the node of [values]. *)
Definition new (cls : class) (nd : Node) (vs : Values)
    (refresh : bool) (delay : option Z) : run unit :=
  match cls with
  | ZwaveDimmer => ZwaveDimmer_init ZwaveDimmer refresh delay
  | ZwaveColorLight => ZwaveColorLight_init refresh delay
  end (ZWaveDeviceEntity_init nd vs).

(** *** Reading the decoded state *)

(** The integer nearest to [n / d] for positive [d] (halves go up). *)
Definition nearest (n d : Z) : Z := (2 * n + d) / (2 * d).

(** The level of the latest dimmer command the node received. *)
Definition last_level (self : Entity) : option Z :=
  option_map snd (hd_error (dimmer_sent (node self))).

(** The text of the color value, when the device has one. *)
Definition color_data (self : Entity) : option string :=
  option_map data (color (values self)).

(** The white levels that the decode reads from a payload: each one is the
    two characters at the cursor when its channel bit is set, zero
    otherwise; the cursor starts after the three RGB bytes. *)
Definition warm_level (channels : Z) (payload : string) : option Z :=
  if nonzero (Z.land channels COLOR_CHANNEL_WARM_WHITE)
  then Py.int16 (Py.slice 7 9 payload)
  else Some 0.

Definition cold_level (channels : Z) (payload : string) : option Z :=
  if nonzero (Z.land channels COLOR_CHANNEL_COLD_WHITE) then
    if nonzero (Z.land channels COLOR_CHANNEL_WARM_WHITE)
    then Py.int16 (Py.slice 9 11 payload)
    else Py.int16 (Py.slice 7 9 payload)
  else Some 0.

(** Does the bitmask declare a red, green or blue channel? *)
Definition has_rgb (channels : Z) : bool :=
  nonzero (Z.land channels COLOR_CHANNEL_RED)
  || nonzero (Z.land channels COLOR_CHANNEL_GREEN)
  || nonzero (Z.land channels COLOR_CHANNEL_BLUE).

(** The number of characters of a complete payload: the marker, six for
    RGB, two for each white channel of the bitmask. *)
Definition payload_length (channels : Z) : nat :=
  (7 + (if nonzero (Z.land channels COLOR_CHANNEL_WARM_WHITE) then 2 else 0)
     + (if nonzero (Z.land channels COLOR_CHANNEL_COLD_WHITE) then 2 else 0))%nat.

(** Is an identity string blank, i.e. empty once stripped? *)
Definition blank (text : string) : bool := negb (Py.truthy (Py.strip text)).

(** The dimmer command is rejected, whatever the level. *)
Definition rejects (self : Entity) : Prop :=
  forall level,
    dimmer_reply (node self) (value_id (primary (values self))) level = false.

(** What the decode exposes of a colour: [rgb_color] is reported only when
    the bitmask has a red, green or blue channel. *)
Definition report (channels : Z) (rgb : list Z) : option (list Z) :=
  if has_rgb channels then Some rgb else None.

(** Is [z] written as exactly two characters that [int(_, 16)] reads
    back? *)
Definition byte_round_trips (z : Z) : bool :=
  match Py.format_02x z with
  | String hi (String lo EmptyString) =>
      match Py.int16 (String hi (String lo EmptyString)) with
      | Some v => v =? z
      | None => false
      end
  | _ => false
  end.

(** *** Sample devices

    The bounds of [homeassistant.util.color] (500 and 154 mireds) and
    stand-ins for its conversions, to run the platform on concrete
    devices. *)
Definition sample_kelvin (mired : Py.num) : Py.num := mired.

Definition sample_temperature_rgb (kelvin : Py.num) : list Py.num :=
  [Py.Float (Py.float_of_Z 255); Py.Float (Py.int_truediv 2945 20);
   Py.Float (Py.float_of_Z 41)].

Definition sample_rgb_to_rgbw (r g b : Z) : list Z :=
  let w := Z.min r (Z.min g b) in [r - w; g - w; b - w; w].

Definition sample_rgbw_to_rgb (r g b w : Z) : list Z := [r + w; g + w; b + w].

Definition accepting_node (manufacturer product : string) : Node :=
  mkNode manufacturer product (fun _ _ => true) [].

Definition rejecting_node : Node :=
  mkNode "0086" "0062" (fun _ _ => false) [].

(** Values with the raw level 50, a color payload and a channel bitmask. *)
Definition sample_values (payload : string) (channels : Z) : Values :=
  mkValues (mkValue 7 50) (Some (mkValue 8 payload))
    (Some (mkValue 9 channels)).

(** An entity as a first decode of level 50 leaves it, before any color
    attribute is known; [zw098] is the workaround flag. *)
Definition sample_entity (nd : Node) (vs : Values) (zw098 : option Z)
    (channels : option Z) : Entity :=
  mkEntity nd vs (Some (Py.Float (Py.float_of_Z 129))) (Some STATE_ON)
    None false zw098 false channels None None.

(** *** Features and device creation *)

(** The feature flags of [homeassistant.components.light] and the command
    class of colour switches of [zwave.const] are integers of other
    modules. *)
Variables SUPPORT_BRIGHTNESS SUPPORT_COLOR_TEMP SUPPORT_RGB_COLOR : Z.
Variable COMMAND_CLASS_SWITCH_COLOR : Z.

Definition SUPPORT_ZWAVE_DIMMER : Z := SUPPORT_BRIGHTNESS.

Definition SUPPORT_ZWAVE_COLOR : Z :=
  Z.lor SUPPORT_BRIGHTNESS SUPPORT_RGB_COLOR.

Definition SUPPORT_ZWAVE_COLORTEMP : Z :=
  Z.lor (Z.lor SUPPORT_BRIGHTNESS SUPPORT_RGB_COLOR) SUPPORT_COLOR_TEMP.

Definition ZwaveDimmer_supported_features (self : Entity) : Z :=
  SUPPORT_ZWAVE_DIMMER.

Definition ZwaveColorLight_supported_features (self : Entity) : Z :=
  if truthy (_zw098 self) then SUPPORT_ZWAVE_COLORTEMP
  else SUPPORT_ZWAVE_COLOR.

(** The property as dispatched on the class of [self]. *)
Definition supported_features (cls : class) (self : Entity) : Z :=
  match cls with
  | ZwaveDimmer => ZwaveDimmer_supported_features self
  | ZwaveColorLight => ZwaveColorLight_supported_features self
  end.

(** The two entries of [node_config] that [get_device] reads; a missing
    refresh entry is [None], which is false. *)
Record NodeConfig : Type := mkNodeConfig {
  CONF_REFRESH_VALUE : bool;
  CONF_REFRESH_DELAY : option Z
}.

(** [get_device(node, values, node_config)]: the class of the entity and the
    outcome of its constructor.  [has_command_class] is the method of
    [node]; the debug log line is not modelled. *)
Definition get_device (has_command_class : Z -> bool) (nd : Node)
    (vs : Values) (node_config : NodeConfig) : class * run unit :=
  let refresh := CONF_REFRESH_VALUE node_config in
  let delay := CONF_REFRESH_DELAY node_config in
  if has_command_class COMMAND_CLASS_SWITCH_COLOR
  then (ZwaveColorLight, new ZwaveColorLight nd vs refresh delay)
  else (ZwaveDimmer, new ZwaveDimmer nd vs refresh delay).

(** *** The life of an entity *)

(** [turn_on] and [turn_off] as dispatched on the class of [self]. *)
Definition turn_on (cls : class) (kwargs : Kwargs) : M unit :=
  match cls with
  | ZwaveDimmer => ZwaveDimmer_turn_on kwargs
  | ZwaveColorLight => ZwaveColorLight_turn_on kwargs
  end.

(** The network replaces the values of the device. *)
Definition set_values (vs : Values) (s : Entity) : Entity :=
  mkEntity (node s) vs (_brightness s) (_state s) (_delay s)
    (_refresh_value s) (_zw098 s) (_refreshing s) (_color_channels s)
    (_rgb s) (_ct s).

(** What can happen to a constructed entity: the three methods, and a change
    of the values on the network.  A call that raises leaves the entity as
    it was at the exception. *)
Inductive call : Type :=
| Call_turn_on (kwargs : Kwargs)
| Call_turn_off
| Call_update_properties
| Network_sets (vs : Values).

Definition perform (cls : class) (s : Entity) (c : call) : Entity :=
  match c with
  | Call_turn_on kwargs => after (turn_on cls kwargs s)
  | Call_turn_off => after (ZwaveDimmer_turn_off s)
  | Call_update_properties => after (update_properties cls s)
  | Network_sets vs => set_values vs s
  end.

Definition perform_all (cls : class) (calls : list call) (s : Entity)
  : Entity :=
  fold_left (perform cls) calls s.

(** *** Value changes and the refresh timer *)

(** [value_changed] of [zwave.ZWaveDeviceEntity], the method of the base
    class in another module, dispatched on the class of [self]. *)
Variable ZWaveDeviceEntity_value_changed : class -> M unit.

(** An entity with its [threading.Timer] objects, numbered as they are
    created.  [_timer] is the attribute of [self]; [waiting] holds the
    timers that were started and have neither fired nor been cancelled, the
    ones for which [isAlive()] holds; [refreshes] counts the calls of
    [values.primary.refresh()].  Method calls and timer callbacks run one
    at a time, each to its end. *)
Record World : Type := mkWorld {
  entity : Entity;
  _timer : option nat;
  waiting : list nat;
  created : nat;
  refreshes : nat
}.

(** The world of an entity that [__init__] has just returned. *)
Definition initial_world (s : Entity) : World := mkWorld s None [] 0 0.

(** A method of the entity inside the world: the exception it raised, if
    any, and the world it leaves. *)
Definition in_world (c : M unit) (w : World) : option Py.exn * World :=
  match c (entity w) with
  | Ok _ s => (None, mkWorld s (_timer w) (waiting w) (created w) (refreshes w))
  | Raise e s =>
      (Some e, mkWorld s (_timer w) (waiting w) (created w) (refreshes w))
  end.

(** [timer.cancel()]. *)
Definition cancel (t : nat) (timers : list nat) : list nat :=
  filter (fun u => negb (Nat.eqb u t)) timers.

(** [timer.isAlive()]. *)
Definition isAlive (t : nat) (timers : list nat) : bool :=
  existsb (Nat.eqb t) timers.

(** [ZwaveDimmer.value_changed], inherited by [ZwaveColorLight]. *)
Definition ZwaveDimmer_value_changed (cls : class) (w : World)
  : option Py.exn * World :=
  let self := entity w in
  if _refresh_value self then
    if _refreshing self then
      in_world (ZWaveDeviceEntity_value_changed cls)
        (mkWorld (set_refreshing false self) (_timer w) (waiting w)
           (created w) (refreshes w))
    else
      let timers :=
        match _timer w with
        | Some t => if isAlive t (waiting w) then cancel t (waiting w)
                    else waiting w
        | None => waiting w
        end in
      (None,
       mkWorld self (Some (created w)) (created w :: timers)
         (S (created w)) (refreshes w))
  else in_world (ZWaveDeviceEntity_value_changed cls) w.

(** The callback [_refresh_value] of a timer. *)
Definition _refresh_value_callback (w : World) : World :=
  mkWorld (set_refreshing true (entity w)) (_timer w) (waiting w) (created w)
    (S (refreshes w)).

(** Timer [t] reaches its delay: a waiting timer runs its callback and is
    waiting no more; a cancelled or spent one does nothing. *)
Definition timer_fires (t : nat) (w : World) : World :=
  if isAlive t (waiting w) then
    _refresh_value_callback
      (mkWorld (entity w) (_timer w) (cancel t (waiting w)) (created w)
         (refreshes w))
  else w.

Inductive event : Type :=
| Value_changed
| Timer_fires (t : nat).

Definition happen (cls : class) (w : World) (ev : event) : World :=
  match ev with
  | Value_changed => snd (ZwaveDimmer_value_changed cls w)
  | Timer_fires t => timer_fires t w
  end.

Definition happen_all (cls : class) (events : list event) (w : World)
  : World :=
  fold_left (happen cls) events w.

(** The number of value changes among the events. *)
Definition is_change (ev : event) : bool :=
  match ev with
  | Value_changed => true
  | Timer_fires _ => false
  end.

Definition changes (events : list event) : nat :=
  List.length (filter is_change events).

(** At most one timer waits, and it is the one [self._timer] names. *)
Definition one_waits (w : World) : Prop :=
  waiting w = [] \/ exists t, _timer w = Some t /\ waiting w = [t].

(** *** Reading the commands *)

(** The raw level that [turn_on] computes from an integer brightness. *)
Definition level_of_brightness (b : Z) : Z := 99 * b / 255.

(** Is the level computed for brightness [b] the one above? *)
Definition level_checks (b : Z) : bool :=
  match Py.truediv_lit (Py.Int b) 255 with
  | inr q =>
      match Py.int_of_float (Py.fmul q (Py.float_of_Z 99)) with
      | inr l => l =? level_of_brightness b
      | inl _ => false
      end
  | inl _ => false
  end.

(** Does the brightness decoded from raw level [r] convert back to [r] or
    to [r - 1]? *)
Definition level_drifts (r : Z) : bool :=
  match brightness_state (mkValue 0 r) with
  | inr (b, _) =>
      match Py.truediv_lit b 255 with
      | inr q =>
          match Py.int_of_float (Py.fmul q (Py.float_of_Z 99)) with
          | inr l => (r - 1 <=? l) && (l <=? r)
          | inl _ => false
          end
      | inl _ => false
      end
  | inl _ => false
  end.

(** The colour that a decode without the workaround computes from the
    parsed triple and white levels: the warm level blended in when the
    bitmask has the warm channel, else the cold level when it has the cold
    channel, else the triple itself. *)
Definition blended (channels : Z) (r g b warm cold : Z) : list Z :=
  if nonzero (Z.land channels COLOR_CHANNEL_WARM_WHITE)
  then color_rgbw_to_rgb r g b warm
  else if nonzero (Z.land channels COLOR_CHANNEL_COLD_WHITE)
  then color_rgbw_to_rgb r g b cold
  else [r; g; b].

(** ** Properties *)

Ltac run := unfold bind, gets, modify, ret, raise, lift, int16 in *; cbn in *.

(** [nearest n d] is within one half of [n / d]. *)
Lemma nearest_spec (n d : Z) :
  0 < d -> 2 * Z.abs (d * nearest n d - n) <= d.
Proof.
  intros H. unfold nearest.
  pose proof (Z.div_mod (2 * n + d) (2 * d) ltac:(lia)) as E.
  pose proof (Z.mod_pos_bound (2 * n + d) (2 * d) ltac:(lia)) as B.
  lia.
Qed.

Lemma brightness_state_data (value : Value Z) :
  brightness_state value = brightness_state (mkValue 0 (data value)).
Proof. destruct value; reflexivity. Qed.

Lemma level_in_seq (r : Z) (lo len : nat) :
  Z.of_nat lo <= r < Z.of_nat (lo + len) -> In (Z.to_nat r) (seq lo len).
Proof. intros H. apply in_seq. lia. Qed.

Lemma brightness_state_table :
  Forall (fun n =>
            brightness_state (mkValue 0 (Z.of_nat n))
            = inr (Py.Float (Py.float_of_Z (nearest (255 * Z.of_nat n) 99)),
                   STATE_ON))
         (seq 1 99).
Proof.
  cbv [seq].
  repeat (apply Forall_cons; [vm_compute; reflexivity | ]).
  apply Forall_nil.
Qed.

(** C7: a raw level from 1 to 99 decodes to ON with the brightness
    [round(r / 99 * 255)], the integer nearest to [255 r / 99] as a float;
    the raw level 0 decodes to OFF with brightness 0. *)
Theorem brightness_state_levels (value : Value Z) :
  0 <= data value <= 99 ->
  brightness_state value
  = inr (if data value =? 0 then (Py.Int 0, STATE_OFF)
         else (Py.Float (Py.float_of_Z (nearest (255 * data value) 99)),
               STATE_ON)).
Proof.
  intros H. rewrite brightness_state_data.
  destruct (Z.eqb_spec (data value) 0) as [E | E].
  - rewrite E. reflexivity.
  - pose proof brightness_state_table as T.
    rewrite Forall_forall in T.
    specialize (T (Z.to_nat (data value))).
    rewrite Z2Nat.id in T by lia.
    apply T. apply level_in_seq. lia.
Qed.

(** Every byte level decodes without an exception. *)
Lemma brightness_state_byte (value : Value Z) :
  0 <= data value <= 255 -> exists bs, brightness_state value = inr bs.
Proof.
  intros H. rewrite brightness_state_data.
  assert (T : Forall (fun n => exists bs,
                        brightness_state (mkValue 0 (Z.of_nat n)) = inr bs)
                     (seq 0 256)).
  { cbv [seq].
    repeat (apply Forall_cons; [eexists; vm_compute; reflexivity | ]).
    apply Forall_nil. }
  rewrite Forall_forall in T.
  specialize (T (Z.to_nat (data value))).
  rewrite Z2Nat.id in T by lia.
  apply T. apply level_in_seq. lia.
Qed.


(** Without a brightness argument the raw level is the sentinel 255. *)
Lemma turn_on_without_brightness (kwargs : Kwargs) (self : Entity) :
  ATTR_BRIGHTNESS kwargs = None ->
  exists self',
    ZwaveDimmer_turn_on kwargs self = Ok tt self'
    /\ last_level self' = Some 255.
Proof.
  intros H. unfold ZwaveDimmer_turn_on. rewrite H. run.
  unfold node_set_dimmer. cbn.
  destruct (dimmer_reply (node self) (value_id (primary (values self))) 255);
    eexists; (split; reflexivity).
Qed.

(** C4 (as the code has it): after a rejected dimmer command [is_on] is
    what it was, for [turn_on] and for [turn_off]; [brightness] is what it
    was after [turn_off] and after a [turn_on] without brightness argument,
    and it is the requested brightness after a [turn_on] with one. *)
Theorem rejected_write_state (kwargs : Kwargs) (self : Entity) :
  rejects self ->
  let on := after (ZwaveDimmer_turn_on kwargs self) in
  let off := after (ZwaveDimmer_turn_off self) in
  is_on on = is_on self
  /\ brightness on
     = match ATTR_BRIGHTNESS kwargs with
       | Some b => Some b
       | None => brightness self
       end
  /\ is_on off = is_on self
  /\ brightness off = brightness self.
Proof.
  intros R. unfold rejects in R. cbv zeta.
  unfold ZwaveDimmer_turn_on, ZwaveDimmer_turn_off, node_set_dimmer.
  destruct (ATTR_BRIGHTNESS kwargs) as [b | ]; run.
  - destruct (Py.truediv_lit b 255) as [e | q]; run.
    + rewrite R. repeat split; reflexivity.
    + match goal with
      | |- context [Py.int_of_float ?f] =>
          destruct (Py.int_of_float f) as [e | l]
      end; run; rewrite ?R; run; rewrite ?R; repeat split; reflexivity.
  - rewrite !R. repeat split; reflexivity.
Qed.

(** C3 (as the code has it): when either identity string is blank, a dimmer
    is constructed with no workaround profile and nothing is raised; when
    both are present and one of them is not a hexadecimal numeral, the
    [ValueError] of [int()] leaves the constructor. *)
Theorem init_device_ids (cls : class) (nd : Node) (vs : Values)
    (refresh : bool) (delay : option Z) (bs : Py.num * state_t) :
  brightness_state (primary vs) = inr bs ->
  (blank (manufacturer_id nd) = true \/ blank (product_id nd) = true ->
   exists self,
     new ZwaveDimmer nd vs refresh delay = Ok tt self
     /\ _zw098 self = None)
  /\ (blank (manufacturer_id nd) = false ->
      blank (product_id nd) = false ->
      Py.int16 (manufacturer_id nd) = None
      \/ Py.int16 (product_id nd) = None ->
      exists self,
        new cls nd vs refresh delay = Raise Py.ValueError self).
Proof.
  intros B. unfold blank. split.
  - intros Hb.
    assert (G : Py.truthy (Py.strip (manufacturer_id nd))
                && Py.truthy (Py.strip (product_id nd)) = false).
    { destruct Hb as [Hb | Hb]; apply negb_true_iff in Hb; rewrite Hb;
        [reflexivity | apply andb_false_r]. }
    unfold new, ZwaveDimmer_init, update_properties,
      ZwaveDimmer_update_properties.
    run. rewrite G. cbn. rewrite B. cbn.
    eexists. split; reflexivity.
  - intros Hm Hp Hx.
    apply negb_false_iff in Hm. apply negb_false_iff in Hp.
    unfold new, ZwaveColorLight_init, ZwaveDimmer_init.
    destruct cls; run; rewrite Hm, Hp; cbn;
      (destruct Hx as [Hx | Hx];
       [ rewrite Hx; cbn; eexists; reflexivity
       | destruct (Py.int16 (manufacturer_id nd)); cbn;
         [ rewrite Hx; cbn; eexists; reflexivity
         | eexists; reflexivity ] ]).
Qed.

(** *** Decoding the color value *)

Lemma substring_short (n m : nat) (s : string) :
  (String.length s <= n)%nat -> substring n m s = EmptyString.
Proof.
  revert n. induction s as [ | c s IH]; intros [ | n] H; cbn in *.
  - destruct m; reflexivity.
  - reflexivity.
  - lia.
  - apply IH. lia.
Qed.

Lemma slice_short (i j : nat) (s : string) :
  (String.length s <= i)%nat -> Py.slice i j s = EmptyString.
Proof. apply substring_short. Qed.

Lemma int16_slice_short (i j : nat) (s : string) :
  (String.length s <= i)%nat -> Py.int16 (Py.slice i j s) = None.
Proof. intros H. rewrite slice_short by exact H. reflexivity. Qed.

Ltac decode :=
  unfold ZwaveColorLight_update_properties, ZwaveDimmer_update_properties,
    blend;
  unfold bind, gets, modify, ret, raise, lift, int16;
  cbn [values color color_channels set_brightness set_state
       set_color_channels set_rgb set_ct _zw098 _rgb _ct fst snd
       Nat.add rgb_color color_temp after].

(** C1 (as the code has it): when the payload is at least two characters
    shorter than the bitmask implies, so that a two-character field the
    decode needs is empty, [update_properties] raises the [ValueError] of
    [int()] and nothing catches it.  [color_temp] is then what it was, and
    so is [rgb_color] when not even the RGB fields are complete. *)
Theorem short_payload_raises (self : Entity) (cv : Value string)
    (chv : Value Z) (bs : Py.num * state_t) :
  color (values self) = Some cv ->
  color_channels (values self) = Some chv ->
  brightness_state (primary (values self)) = inr bs ->
  (String.length (data cv) + 2 <= payload_length (data chv))%nat ->
  exists self',
    ZwaveColorLight_update_properties self = Raise Py.ValueError self'
    /\ color_temp self' = color_temp self
    /\ ((String.length (data cv) <= 5)%nat ->
        rgb_color self' = rgb_color self).
Proof.
  intros Hc Hch B L. unfold payload_length in L.
  decode. rewrite B. decode. rewrite Hc, Hch. decode.
  destruct (Py.int16 (Py.slice 1 3 (data cv))) as [r | ] eqn:E1;
    [ | eexists; split; [reflexivity | split; [reflexivity | reflexivity]] ].
  destruct (Py.int16 (Py.slice 3 5 (data cv))) as [g | ] eqn:E3;
    [ | eexists; split; [reflexivity | split; [reflexivity | reflexivity]] ].
  destruct (Py.int16 (Py.slice 5 7 (data cv))) as [b | ] eqn:E5;
    [ | eexists; split; [reflexivity | split; [reflexivity | reflexivity]] ].
  assert (L5 : (5 < String.length (data cv))%nat).
  { destruct (Nat.le_gt_cases (String.length (data cv)) 5) as [H | H];
      [ | exact H ].
    rewrite int16_slice_short in E5 by exact H. discriminate. }
  decode.
  destruct (nonzero (Z.land (data chv) COLOR_CHANNEL_WARM_WHITE)) eqn:W;
    destruct (nonzero (Z.land (data chv) COLOR_CHANNEL_COLD_WHITE)) eqn:C;
    decode.
  - destruct (Py.int16 (Py.slice 7 9 (data cv))) as [w | ] eqn:E7; decode.
    + rewrite int16_slice_short by lia.
      eexists; split; [reflexivity | split; [reflexivity | intros; exfalso; lia]].
    + eexists; split; [reflexivity | split; [reflexivity | intros; exfalso; lia]].
  - rewrite int16_slice_short by lia.
    eexists; split; [reflexivity | split; [reflexivity | intros; exfalso; lia]].
  - rewrite int16_slice_short by lia.
    eexists; split; [reflexivity | split; [reflexivity | intros; exfalso; lia]].
  - lia.
Qed.

(** The decode of a payload whose fields parse, up to the point where the
    colour is resolved. *)
Lemma decode_parsed (self : Entity) (cv : Value string) (chv : Value Z)
    (bs : Py.num * state_t) (r g b w c : Z) :
  color (values self) = Some cv ->
  color_channels (values self) = Some chv ->
  brightness_state (primary (values self)) = inr bs ->
  Py.int16 (Py.slice 1 3 (data cv)) = Some r ->
  Py.int16 (Py.slice 3 5 (data cv)) = Some g ->
  Py.int16 (Py.slice 5 7 (data cv)) = Some b ->
  warm_level (data chv) (data cv) = Some w ->
  cold_level (data chv) (data cv) = Some c ->
  ZwaveColorLight_update_properties self
  = ((if truthy (_zw098 self) then
        if w >? 0 then
          modify (set_ct (Some TEMP_WARM_HASS));;
          rgb <- lift (ct_to_rgb TEMP_WARM_HASS);;
          modify (set_rgb (Some rgb))
        else if c >? 0 then
          modify (set_ct (Some TEMP_COLD_HASS));;
          rgb <- lift (ct_to_rgb TEMP_COLD_HASS);;
          modify (set_rgb (Some rgb))
        else modify (set_ct (Some TEMP_MID_HASS))
      else modify (set_rgb (Some (blended (data chv) r g b w c))));;
     (if has_rgb (data chv) then ret tt else modify (set_rgb None)))
      (set_rgb (Some [r; g; b])
         (set_color_channels (Some (data chv))
            (set_state (Some (snd bs))
               (set_brightness (Some (fst bs)) self)))).
Proof.
  intros Hc Hch B E1 E3 E5 Ew Ec.
  unfold warm_level, cold_level in *. unfold blended, has_rgb.
  decode. rewrite B. decode. rewrite Hc, Hch. decode.
  rewrite E1, E3, E5. decode. revert Ew Ec.
  destruct (nonzero (Z.land (data chv) COLOR_CHANNEL_WARM_WHITE)) eqn:W;
    destruct (nonzero (Z.land (data chv) COLOR_CHANNEL_COLD_WHITE)) eqn:C;
    intros Ew Ec; decode;
    try (injection Ew as <-); try rewrite Ew; decode;
    try (injection Ec as <-); try rewrite Ec; decode;
    destruct (truthy (_zw098 self));
    repeat match goal with
      | |- context [?x >? 0] => destruct (x >? 0)
      end;
    repeat match goal with
      | |- context [ct_to_rgb ?t] => destruct (ct_to_rgb t)
      end;
    try reflexivity;
    match goal with
    | |- context [negb ?x] => destruct x
    end; reflexivity.
Qed.

(** C9 (as the code has it): with none of the RED, GREEN and BLUE bits in
    the bitmask, a decode whose payload parses returns and leaves
    [rgb_color] absent, whatever it was before and whatever the white
    levels and the workaround did.  A payload whose RGB fields parse but
    whose white field is missing or unreadable makes the decode raise
    [ValueError] with the parsed triple in [rgb_color]. *)
Theorem no_rgb_channels_no_rgb (self : Entity) (cv : Value string)
    (chv : Value Z) (bs : Py.num * state_t) (r g b : Z) :
  color (values self) = Some cv ->
  color_channels (values self) = Some chv ->
  has_rgb (data chv) = false ->
  brightness_state (primary (values self)) = inr bs ->
  Py.int16 (Py.slice 1 3 (data cv)) = Some r ->
  Py.int16 (Py.slice 3 5 (data cv)) = Some g ->
  Py.int16 (Py.slice 5 7 (data cv)) = Some b ->
  (forall w c warm cold,
     warm_level (data chv) (data cv) = Some w ->
     cold_level (data chv) (data cv) = Some c ->
     (truthy (_zw098 self) = true ->
      ct_to_rgb TEMP_WARM_HASS = inr warm
      /\ ct_to_rgb TEMP_COLD_HASS = inr cold) ->
     exists self',
       ZwaveColorLight_update_properties self = Ok tt self'
       /\ rgb_color self' = None)
  /\ (warm_level (data chv) (data cv) = None
      \/ cold_level (data chv) (data cv) = None ->
      exists self',
        ZwaveColorLight_update_properties self = Raise Py.ValueError self'
        /\ rgb_color self' = Some [r; g; b]).
Proof.
  intros Hc Hch N B E1 E3 E5. split.
  - intros w c warm cold Ew Ec Hct.
    rewrite (decode_parsed self cv chv bs r g b w c) by assumption.
    rewrite N. unfold bind, modify, lift, ret.
    destruct (truthy (_zw098 self)).
    + destruct (Hct eq_refl) as [Hw Hk]. rewrite Hw, Hk.
      destruct (w >? 0); [ | destruct (c >? 0) ];
        eexists; split; reflexivity.
    + eexists; split; reflexivity.
  - intros H. unfold warm_level, cold_level in H.
    decode. rewrite B. decode. rewrite Hc, Hch. decode.
    rewrite E1, E3, E5. decode. revert H.
    destruct (nonzero (Z.land (data chv) COLOR_CHANNEL_WARM_WHITE));
      destruct (nonzero (Z.land (data chv) COLOR_CHANNEL_COLD_WHITE));
      intros [H | H]; try discriminate; decode;
      try (rewrite H; decode; eexists; split; reflexivity);
      destruct (Py.int16 (Py.slice 7 9 (data cv))); decode;
      try (rewrite H; decode); eexists; split; reflexivity.
Qed.

(** C5 (as the code has it): on a ZW098 device whose payload parses, a warm
    level above zero gives [color_temp = WARM] and the colour
    [ct_to_rgb(WARM)], otherwise a cold level above zero gives [COLD] and
    [ct_to_rgb(COLD)], otherwise [MID] and the parsed triple; the colour is
    exposed as [rgb_color] when the bitmask has a red, green or blue
    channel, and [rgb_color] is absent when it has none. *)
Theorem zw098_color_temperature (self : Entity) (cv : Value string)
    (chv : Value Z) (bs : Py.num * state_t) (r g b w c : Z) :
  color (values self) = Some cv ->
  color_channels (values self) = Some chv ->
  truthy (_zw098 self) = true ->
  brightness_state (primary (values self)) = inr bs ->
  Py.int16 (Py.slice 1 3 (data cv)) = Some r ->
  Py.int16 (Py.slice 3 5 (data cv)) = Some g ->
  Py.int16 (Py.slice 5 7 (data cv)) = Some b ->
  warm_level (data chv) (data cv) = Some w ->
  cold_level (data chv) (data cv) = Some c ->
  (0 < w ->
   forall rgb, ct_to_rgb TEMP_WARM_HASS = inr rgb ->
   exists self',
     ZwaveColorLight_update_properties self = Ok tt self'
     /\ color_temp self' = Some TEMP_WARM_HASS
     /\ rgb_color self' = report (data chv) rgb)
  /\ (w <= 0 -> 0 < c ->
      forall rgb, ct_to_rgb TEMP_COLD_HASS = inr rgb ->
      exists self',
        ZwaveColorLight_update_properties self = Ok tt self'
        /\ color_temp self' = Some TEMP_COLD_HASS
        /\ rgb_color self' = report (data chv) rgb)
  /\ (w <= 0 -> c <= 0 ->
      exists self',
        ZwaveColorLight_update_properties self = Ok tt self'
        /\ color_temp self' = Some TEMP_MID_HASS
        /\ rgb_color self' = report (data chv) [r; g; b]).
Proof.
  intros Hc Hch Zw B E1 E3 E5 Ew Ec.
  unfold warm_level, cold_level in *. unfold report, has_rgb.
  decode. rewrite B. decode. rewrite Hc, Hch. decode.
  rewrite E1, E3, E5. decode. revert Ew Ec.
  destruct (nonzero (Z.land (data chv) COLOR_CHANNEL_WARM_WHITE)) eqn:W;
    destruct (nonzero (Z.land (data chv) COLOR_CHANNEL_COLD_WHITE)) eqn:C;
    intros Ew Ec; decode;
    try (injection Ew as <-); try rewrite Ew; decode;
    try (injection Ec as <-); try rewrite Ec; decode;
    rewrite Zw;
    (split; [ | split ]).
  all: intros; decode.
  all: repeat match goal with
         | H : 0 < ?x |- context [?x >? 0] =>
             replace (x >? 0) with true by (symmetry; apply Z.gtb_lt; lia)
         | H : ?x <= 0 |- context [?x >? 0] =>
             replace (x >? 0) with false
               by (symmetry; apply not_true_is_false; rewrite Z.gtb_lt; lia)
         | |- context [0 >? 0] => change (0 >? 0) with false
         end.
  all: try lia.
  all: decode.
  all: repeat match goal with
         | H : ct_to_rgb _ = inr _ |- _ => rewrite H; clear H
         end; decode.
  all: match goal with
       | |- context [negb ?x] => destruct x
       end; cbn [negb];
       (eexists; split; [reflexivity | split; reflexivity]).
Qed.

(** *** Writing the color value *)

(** [ZwaveDimmer.turn_on] touches the brightness, the state and the node
    only, however it ends. *)
Lemma dimmer_turn_on_frame (kwargs : Kwargs) (s : Entity) :
  let s' := after (ZwaveDimmer_turn_on kwargs s) in
  values s' = values s
  /\ _ct s' = _ct s
  /\ _rgb s' = _rgb s
  /\ _zw098 s' = _zw098 s
  /\ _color_channels s' = _color_channels s.
Proof.
  cbv zeta. unfold ZwaveDimmer_turn_on, node_set_dimmer.
  destruct (ATTR_BRIGHTNESS kwargs) as [b | ]; run.
  - destruct (Py.truediv_lit b 255) as [e | q]; run.
    + repeat split; reflexivity.
    + match goal with
      | |- context [Py.int_of_float ?f] =>
          destruct (Py.int_of_float f) as [e | l]
      end; run.
      * repeat split; reflexivity.
      * match goal with
        | |- context [if ?c then _ else _] => destruct c
        end; repeat split; reflexivity.
  - match goal with
    | |- context [if ?c then _ else _] => destruct c
    end; repeat split; reflexivity.
Qed.


Ltac encode :=
  unfold ZwaveColorLight_turn_on;
  unfold bind, gets, modify, ret, raise;
  cbn [values color color_channels set_brightness set_state
       set_color_channels set_rgb set_ct set_color_data _zw098 _rgb _ct
       _color_channels Py.truthy negb orb].


(** C10: on a device without the workaround, [turn_on] with a [color_temp]
    argument writes nothing to the color value and leaves [color_temp] and
    [rgb_color] as they were (the values of the device are untouched
    altogether). *)
Theorem color_temp_ignored (kwargs : Kwargs) (self : Entity) (temp : Py.num) :
  truthy (_zw098 self) = false ->
  ATTR_COLOR_TEMP kwargs = Some temp ->
  let self' := after (ZwaveColorLight_turn_on kwargs self) in
  values self' = values self
  /\ color_data self' = color_data self
  /\ color_temp self' = color_temp self
  /\ rgb_color self' = rgb_color self.
Proof.
  intros Zw Ht. cbv zeta.
  encode. rewrite Ht. encode. rewrite Zw. encode.
  destruct (dimmer_turn_on_frame kwargs self) as (Hv & Hct & Hrgb & _).
  unfold color_temp, color_data, rgb_color.
  rewrite Hv, Hct, Hrgb. repeat split; reflexivity.
Qed.

(** Every byte is written as two characters that read back. *)
Lemma bytes_round_trip :
  forallb byte_round_trips (map Z.of_nat (seq 0 256)) = true.
Proof. vm_compute. reflexivity. Qed.

Lemma format_02x_byte (z : Z) :
  0 <= z <= 255 ->
  exists hi lo,
    Py.format_02x z = String hi (String lo EmptyString)
    /\ Py.int16 (String hi (String lo EmptyString)) = Some z.
Proof.
  intros H. pose proof bytes_round_trip as T.
  rewrite forallb_forall in T. specialize (T z).
  assert (I : In z (map Z.of_nat (seq 0 256))).
  { rewrite <- (Z2Nat.id z) by lia. apply in_map.
    apply level_in_seq. lia. }
  apply T in I. unfold byte_round_trips in I.
  destruct (Py.format_02x z) as [ | hi [ | lo [ | ] ] ]; try discriminate.
  destruct (Py.int16 (String hi (String lo EmptyString))) as [v | ] eqn:E;
    try discriminate.
  apply Z.eqb_eq in I. subst v. exists hi, lo. split; [reflexivity | exact E].
Qed.

(** The decode of a payload whose RGB fields parse, on a device without
    white channels and without the workaround. *)
Lemma decode_rgb_only (s : Entity) (cv : Value string) (chv : Value Z)
    (bs : Py.num * state_t) (r g b : Z) :
  color (values s) = Some cv ->
  color_channels (values s) = Some chv ->
  truthy (_zw098 s) = false ->
  Z.land (data chv) COLOR_CHANNEL_WARM_WHITE = 0 ->
  Z.land (data chv) COLOR_CHANNEL_COLD_WHITE = 0 ->
  has_rgb (data chv) = true ->
  brightness_state (primary (values s)) = inr bs ->
  Py.int16 (Py.slice 1 3 (data cv)) = Some r ->
  Py.int16 (Py.slice 3 5 (data cv)) = Some g ->
  Py.int16 (Py.slice 5 7 (data cv)) = Some b ->
  exists s',
    ZwaveColorLight_update_properties s = Ok tt s'
    /\ rgb_color s' = Some [r; g; b].
Proof.
  intros Hc Hch Zw W C N B E1 E3 E5. unfold has_rgb in N.
  decode. rewrite B. decode. rewrite Hc, Hch. decode.
  rewrite E1, E3, E5, W, C, N. cbn [nonzero Z.eqb negb]. decode.
  rewrite Zw. eexists. split; reflexivity.
Qed.

(** C8: on a device without the workaround whose bitmask has no white
    channel and at least one of RED, GREEN and BLUE, the payload that
    [turn_on] writes for a triple of bytes is decoded by
    [update_properties] to the same triple: by the entity that wrote it,
    and by every entity without the workaround that reads the same values,
    whatever colour it held before. *)
Theorem rgb_round_trip (kwargs : Kwargs) (self : Entity)
    (cv : Value string) (chv : Value Z) (bs : Py.num * state_t)
    (r g b : Z) :
  0 <= r <= 255 -> 0 <= g <= 255 -> 0 <= b <= 255 ->
  truthy (_zw098 self) = false ->
  color (values self) = Some cv ->
  color_channels (values self) = Some chv ->
  _color_channels self = Some (data chv) ->
  Z.land (data chv) COLOR_CHANNEL_WARM_WHITE = 0 ->
  Z.land (data chv) COLOR_CHANNEL_COLD_WHITE = 0 ->
  has_rgb (data chv) = true ->
  brightness_state (primary (values self)) = inr bs ->
  ATTR_COLOR_TEMP kwargs = None ->
  ATTR_RGB_COLOR kwargs = Some [r; g; b] ->
  let written := after (ZwaveColorLight_turn_on kwargs self) in
  color_data written
  = Some (String "#" (Py.format_02x r ++ Py.format_02x g
                      ++ Py.format_02x b ++ "0000"))%string
  /\ (exists self',
        ZwaveColorLight_update_properties written = Ok tt self'
        /\ rgb_color self' = Some [r; g; b])
  /\ (forall reader,
        values reader = values written ->
        truthy (_zw098 reader) = false ->
        exists self',
          ZwaveColorLight_update_properties reader = Ok tt self'
          /\ rgb_color self' = Some [r; g; b]).
Proof.
  intros Hr Hg Hb Zw Hc Hch Hcc W C N B Ht Hrgb. cbv zeta.
  destruct (format_02x_byte r Hr) as (r1 & r0 & Fr & Ir).
  destruct (format_02x_byte g Hg) as (g1 & g0 & Fg & Ig).
  destruct (format_02x_byte b Hb) as (b1 & b0 & Fb & Ib).
  encode. rewrite Ht, Hrgb. encode. rewrite Zw. encode.
  rewrite Hcc. encode. rewrite W, C. cbn [nonzero Z.eqb negb orb]. encode.
  rewrite Hc. unfold append_hex. cbn [fold_left].
  rewrite Fr, Fg, Fb. cbn [append Py.truthy]. encode.
  match goal with
  | |- context [after (ZwaveDimmer_turn_on kwargs ?s)] =>
      destruct (dimmer_turn_on_frame kwargs s) as (Hv & _ & _ & Hz & _);
      set (written := after (ZwaveDimmer_turn_on kwargs s)) in *
  end.
  cbn [values set_color_data set_rgb _zw098] in Hv, Hz.
  rewrite Hc in Hv. cbn [option_map] in Hv.
  assert (D : forall reader,
             values reader = values written ->
             truthy (_zw098 reader) = false ->
             exists self',
               ZwaveColorLight_update_properties reader = Ok tt self'
               /\ rgb_color self' = Some [r; g; b]).
  { intros reader Hrv Hrz.
    apply decode_rgb_only
      with (cv := mkValue (value_id cv)
                    (String "#" (String r1 (String r0 (String g1 (String g0
                       (String b1 (String b0 "0000"))))))))
           (chv := chv) (bs := bs);
      rewrite ?Hrv, ?Hv; try assumption; try reflexivity. }
  split; [ | split ].
  - unfold color_data. rewrite Hv. reflexivity.
  - apply D; [reflexivity | rewrite Hz; exact Zw].
  - exact D.
Qed.

(** *** More on the dimmer *)

Lemma table_lookup (f : Z -> bool) (lo len : nat) (z : Z) :
  forallb f (map Z.of_nat (seq lo len)) = true ->
  Z.of_nat lo <= z < Z.of_nat (lo + len) ->
  f z = true.
Proof.
  intros T H. rewrite forallb_forall in T. apply T.
  rewrite <- (Z2Nat.id z) by lia. apply in_map. apply level_in_seq. lia.
Qed.

Lemma level_table : forallb level_checks (map Z.of_nat (seq 0 256)) = true.
Proof. vm_compute. reflexivity. Qed.

Lemma drift_table : forallb level_drifts (map Z.of_nat (seq 0 100)) = true.
Proof. vm_compute. reflexivity. Qed.

(** X1: [turn_on] with an integer brightness from 0 to 255 returns normally
    and sends one dimmer command, whose level is 99 b / 255 rounded down, a
    level from 0 to 99; the brightness is stored, and the light is on if the
    command was accepted or if it was on already. *)
Theorem turn_on_level (kwargs : Kwargs) (self : Entity) (b : Z) :
  ATTR_BRIGHTNESS kwargs = Some (Py.Int b) ->
  0 <= b <= 255 ->
  exists self',
    ZwaveDimmer_turn_on kwargs self = Ok tt self'
    /\ dimmer_sent (node self')
       = (value_id (primary (values self)), level_of_brightness b)
           :: dimmer_sent (node self)
    /\ 0 <= level_of_brightness b <= 99
    /\ brightness self' = Some (Py.Int b)
    /\ is_on self'
       = (dimmer_reply (node self) (value_id (primary (values self)))
            (level_of_brightness b)
          || is_on self).
Proof.
  intros Hb R.
  pose proof (table_lookup level_checks 0 256 b level_table ltac:(lia)) as T.
  unfold level_checks in T.
  unfold ZwaveDimmer_turn_on, node_set_dimmer. rewrite Hb.
  destruct (Py.truediv_lit (Py.Int b) 255) as [e | q]; [discriminate | ].
  destruct (Py.int_of_float (Py.fmul q (Py.float_of_Z 99))) as [e | l] eqn:E;
    [discriminate | ].
  unfold lift, bind, gets, modify, ret, raise. cbv beta iota. rewrite E.
  cbv beta iota.
  apply Z.eqb_eq in T. subst l.
  assert (B : 0 <= level_of_brightness b <= 99).
  { unfold level_of_brightness. split.
    - apply Z.div_pos; lia.
    - apply Z.div_le_upper_bound; lia. }
  cbn [values node primary set_brightness note_dimmer value_id dimmer_reply].
  destruct (dimmer_reply (node self) (value_id (primary (values self)))
              (level_of_brightness b));
    eexists; (split; [reflexivity | ]); cbn;
    repeat split; try reflexivity; lia.
Qed.

(** X2: the brightness that [brightness_state] decodes from a raw level r
    from 0 to 99, given back to [turn_on], is sent as level r or r - 1: the
    conversion truncates where the decode rounds. *)
Theorem brightness_round_trip_drift (kwargs : Kwargs) (self : Entity)
    (value : Value Z) (b : Py.num) (st : state_t) :
  0 <= data value <= 99 ->
  brightness_state value = inr (b, st) ->
  ATTR_BRIGHTNESS kwargs = Some b ->
  exists self' level,
    ZwaveDimmer_turn_on kwargs self = Ok tt self'
    /\ last_level self' = Some level
    /\ data value - 1 <= level <= data value.
Proof.
  intros R B Hb.
  pose proof (table_lookup level_drifts 0 100 (data value) drift_table
                ltac:(lia)) as T.
  unfold level_drifts in T. rewrite <- brightness_state_data, B in T.
  unfold ZwaveDimmer_turn_on, node_set_dimmer. rewrite Hb.
  destruct (Py.truediv_lit b 255) as [e | q]; [discriminate | ].
  destruct (Py.int_of_float (Py.fmul q (Py.float_of_Z 99))) as [e | l] eqn:E;
    [discriminate | ].
  unfold lift, bind, gets, modify, ret, raise. cbv beta iota. rewrite E.
  cbv beta iota.
  apply andb_true_iff in T. destruct T as [T1 T2].
  apply Z.leb_le in T1, T2.
  match goal with
  | |- context [if ?c then _ else _] => destruct c
  end; eexists; exists l; (split; [reflexivity | split; [reflexivity | lia]]).
Qed.

(** X3: [turn_off] always returns normally and sends exactly one dimmer
    command, of level 0.  When it is accepted the light is off; in either
    case the brightness and the colour attributes keep their values. *)
Theorem turn_off_result (self : Entity) :
  exists self',
    ZwaveDimmer_turn_off self = Ok tt self'
    /\ dimmer_sent (node self')
       = (value_id (primary (values self)), 0) :: dimmer_sent (node self)
    /\ is_on self'
       = (negb (dimmer_reply (node self) (value_id (primary (values self))) 0)
          && is_on self)
    /\ brightness self' = brightness self
    /\ rgb_color self' = rgb_color self
    /\ color_temp self' = color_temp self
    /\ values self' = values self.
Proof.
  unfold ZwaveDimmer_turn_off, node_set_dimmer.
  unfold bind, gets, modify, ret.
  destruct (dimmer_reply (node self) (value_id (primary (values self))) 0);
    eexists; (split; [reflexivity | ]); cbn; repeat split; reflexivity.
Qed.

(** *** More on the decode *)

(** X4: while the device has no color value or no color-channels value, the
    decode of a colour light is the decode of a dimmer: brightness and state
    are refreshed, and the cached bitmask, [rgb_color] and [color_temp] are
    left as they were. *)
Theorem decode_without_color_value (self : Entity) :
  color (values self) = None \/ color_channels (values self) = None ->
  ZwaveColorLight_update_properties self = ZwaveDimmer_update_properties self
  /\ _color_channels (after (ZwaveColorLight_update_properties self))
     = _color_channels self
  /\ rgb_color (after (ZwaveColorLight_update_properties self))
     = rgb_color self
  /\ color_temp (after (ZwaveColorLight_update_properties self))
     = color_temp self.
Proof.
  intros H. decode.
  destruct (brightness_state (primary (values self))) as [e | bs]; decode.
  - repeat split; reflexivity.
  - destruct H as [H | H]; rewrite H.
    + repeat split; reflexivity.
    + destruct (color (values self)); repeat split; reflexivity.
Qed.

(** X5: on a device without the workaround whose payload parses, the decode
    blends exactly one white level into the parsed triple: the warm level
    when the bitmask has the warm channel, whatever the cold level is, else
    the cold level when it has the cold channel, else none.  The result is
    exposed when the bitmask has an RGB channel; the bitmask is cached and
    [color_temp] is not touched. *)
Theorem decode_blends_one_white (self : Entity) (cv : Value string)
    (chv : Value Z) (bs : Py.num * state_t) (r g b w c : Z) :
  color (values self) = Some cv ->
  color_channels (values self) = Some chv ->
  truthy (_zw098 self) = false ->
  brightness_state (primary (values self)) = inr bs ->
  Py.int16 (Py.slice 1 3 (data cv)) = Some r ->
  Py.int16 (Py.slice 3 5 (data cv)) = Some g ->
  Py.int16 (Py.slice 5 7 (data cv)) = Some b ->
  warm_level (data chv) (data cv) = Some w ->
  cold_level (data chv) (data cv) = Some c ->
  exists self',
    ZwaveColorLight_update_properties self = Ok tt self'
    /\ rgb_color self' = report (data chv) (blended (data chv) r g b w c)
    /\ (nonzero (Z.land (data chv) COLOR_CHANNEL_WARM_WHITE) = true ->
        blended (data chv) r g b w c = color_rgbw_to_rgb r g b w)
    /\ _color_channels self' = Some (data chv)
    /\ color_temp self' = color_temp self.
Proof.
  intros Hc Hch Zw B E1 E3 E5 Ew Ec.
  rewrite (decode_parsed self cv chv bs r g b w c) by assumption.
  rewrite Zw. unfold report.
  unfold bind, modify, ret.
  destruct (has_rgb (data chv)); eexists;
    (split; [reflexivity | ]);
    (split; [reflexivity | ]);
    (split; [ | split; reflexivity ]);
    intros W; unfold blended; rewrite W; reflexivity.
Qed.

(** X6: a decode never writes to the device: however [update_properties]
    ends, for either class, the node (and with it the list of dimmer
    commands), the values and the workaround flag are what they were. *)
Theorem decode_reads_only (cls : class) (self : Entity) :
  let self' := after (update_properties cls self) in
  node self' = node self
  /\ values self' = values self
  /\ _zw098 self' = _zw098 self.
Proof.
  cbv zeta. destruct cls; unfold update_properties; decode.
  - destruct (brightness_state (primary (values self))); decode;
      repeat split; reflexivity.
  - destruct (brightness_state (primary (values self))); decode;
      [repeat split; reflexivity | ].
    destruct (color (values self)) as [cv | ];
      [ | repeat split; reflexivity ].
    destruct (color_channels (values self)) as [chv | ];
      [ | repeat split; reflexivity ].
    decode.
    repeat (match goal with
            | |- context [match ?x with _ => _ end] =>
                lazymatch x with
                | context [match ?y with _ => _ end] => fail
                | _ => destruct x eqn:?
                end
            end; decode);
      repeat split; reflexivity.
Qed.

(** *** More on [turn_on] *)

Ltac cases :=
  repeat (match goal with
          | |- context [match ?x with _ => _ end] =>
              lazymatch x with
              | context [match ?y with _ => _ end] => fail
              | _ => destruct x eqn:?
              end
          end; cbv beta iota).

(** [ZwaveDimmer.turn_on] sends at most one dimmer command. *)
Lemma dimmer_turn_on_sends (kwargs : Kwargs) (s : Entity) :
  let s' := after (ZwaveDimmer_turn_on kwargs s) in
  dimmer_sent (node s') = dimmer_sent (node s)
  \/ exists level,
       dimmer_sent (node s')
       = (value_id (primary (values s)), level) :: dimmer_sent (node s).
Proof.
  cbv zeta. unfold ZwaveDimmer_turn_on, node_set_dimmer.
  unfold lift, bind, gets, modify, ret, raise. cbv beta iota.
  cases; cbn; try (left; reflexivity); right; eexists; reflexivity.
Qed.

(** X7: [turn_on], for either class and whatever its arguments and its
    outcome, sends at most one dimmer command and writes nothing to the
    device but the text of an existing color value: the primary value, the
    color-channels value and the identity of the color value stay, a device
    without color value is left untouched, and the workaround flag stays. *)
Theorem turn_on_writes_color_only (cls : class) (kwargs : Kwargs)
    (self : Entity) :
  let self' := after (turn_on cls kwargs self) in
  primary (values self') = primary (values self)
  /\ color_channels (values self') = color_channels (values self)
  /\ option_map value_id (color (values self'))
     = option_map value_id (color (values self))
  /\ (color (values self) = None -> values self' = values self)
  /\ _zw098 self' = _zw098 self
  /\ (dimmer_sent (node self') = dimmer_sent (node self)
      \/ exists level,
           dimmer_sent (node self')
           = (value_id (primary (values self)), level)
               :: dimmer_sent (node self)).
Proof.
  cbv zeta. destruct cls; unfold turn_on.
  - destruct (dimmer_turn_on_frame kwargs self) as (Hv & _ & _ & Hz & _).
    pose proof (dimmer_turn_on_sends kwargs self) as Hs. cbv zeta in Hs.
    rewrite Hv, Hz. repeat split; try reflexivity. exact Hs.
  - encode. cases;
      repeat match goal with
        | |- context [after (ZwaveDimmer_turn_on kwargs ?s)] =>
            let Hv := fresh "Hv" in
            let Hz := fresh "Hz" in
            let Hs := fresh "Hs" in
            destruct (dimmer_turn_on_frame kwargs s) as (Hv & _ & _ & Hz & _);
            pose proof (dimmer_turn_on_sends kwargs s) as Hs;
            cbv zeta in Hs;
            generalize dependent (after (ZwaveDimmer_turn_on kwargs s));
            intros
        end;
      cbn in *;
      repeat match goal with
        | H : values _ = _ |- _ => rewrite H
        | H : _zw098 _ = _ |- _ => rewrite H
        end;
      cbn;
      repeat match goal with
        | H : color (values self) = _ |- _ => rewrite H
        end;
      repeat split; try reflexivity; try assumption; try discriminate;
      left; reflexivity.
Qed.

(** *** Construction and the life of an entity *)

(** The table of workarounds has one entry. *)
Lemma mapping_spec (m p : Z) :
  mapping (m, p)
  = if (m =? AEOTEC) && (p =? AEOTEC_ZW098_LED_BULB)
    then Some WORKAROUND_ZW098 else None.
Proof.
  unfold mapping, DEVICE_MAPPINGS, key_eqb, AEOTEC_ZW098_LED_BULB_LIGHT.
  cbn [find fst snd].
  rewrite (Z.eqb_sym AEOTEC m), (Z.eqb_sym AEOTEC_ZW098_LED_BULB p).
  destruct ((m =? AEOTEC) && (p =? AEOTEC_ZW098_LED_BULB)); reflexivity.
Qed.

(** What the constructor does before its first decode: either the device
    ids make it raise, or it decodes an entity whose attributes are unset
    but for the workaround flag. *)
Lemma new_shape (cls : class) (nd : Node) (vs : Values) (refresh : bool)
    (delay : option Z) :
  let base zw :=
    mkEntity nd vs None None delay refresh zw false None None None in
  (blank (manufacturer_id nd) = true \/ blank (product_id nd) = true ->
   new cls nd vs refresh delay = update_properties cls (base None))
  /\ (forall m p,
        blank (manufacturer_id nd) = false ->
        blank (product_id nd) = false ->
        Py.int16 (manufacturer_id nd) = Some m ->
        Py.int16 (product_id nd) = Some p ->
        new cls nd vs refresh delay
        = update_properties cls
            (base (if (m =? AEOTEC) && (p =? AEOTEC_ZW098_LED_BULB)
                   then Some 1 else None))).
Proof.
  cbv zeta. unfold blank. split.
  - intros Hb.
    assert (G : Py.truthy (Py.strip (manufacturer_id nd))
                && Py.truthy (Py.strip (product_id nd)) = false).
    { destruct Hb as [Hb | Hb]; apply negb_true_iff in Hb; rewrite Hb;
        [reflexivity | apply andb_false_r]. }
    unfold new, ZwaveColorLight_init, ZwaveDimmer_init.
    destruct cls; run; rewrite G; reflexivity.
  - intros m p Hm Hp Em Ep.
    apply negb_false_iff in Hm. apply negb_false_iff in Hp.
    unfold new, ZwaveColorLight_init, ZwaveDimmer_init.
    destruct cls;
      unfold bind, gets, modify, ret, raise, int16; cbv beta iota;
      cbn [node manufacturer_id product_id set_brightness set_state
           set_delay set_refresh_value set_zw098 set_color_channels set_rgb
           set_ct ZWaveDeviceEntity_init];
      rewrite Hm, Hp, Em, Ep; cbv beta iota; cbn [andb];
      unfold ret, raise; cbv beta iota;
      rewrite mapping_spec;
      destruct ((m =? AEOTEC) && (p =? AEOTEC_ZW098_LED_BULB)); reflexivity.
Qed.

(** Ids that are present but not hexadecimal make the constructor raise. *)
Lemma new_bad_ids (cls : class) (nd : Node) (vs : Values) (refresh : bool)
    (delay : option Z) :
  blank (manufacturer_id nd) = false ->
  blank (product_id nd) = false ->
  Py.int16 (manufacturer_id nd) = None \/ Py.int16 (product_id nd) = None ->
  exists s, new cls nd vs refresh delay = Raise Py.ValueError s.
Proof.
  unfold blank. intros Hm Hp Hx.
  apply negb_false_iff in Hm. apply negb_false_iff in Hp.
  unfold new, ZwaveColorLight_init, ZwaveDimmer_init.
  destruct cls;
    unfold bind, gets, modify, ret, raise, int16; cbv beta iota;
    cbn [node manufacturer_id product_id set_brightness set_state
         set_delay set_refresh_value set_zw098 set_color_channels set_rgb
         set_ct ZWaveDeviceEntity_init];
    rewrite Hm, Hp; cbv beta iota; cbn [andb];
    (destruct Hx as [Hx | Hx];
     [ rewrite Hx; eexists; reflexivity
     | destruct (Py.int16 (manufacturer_id nd));
       [ rewrite Hx; eexists; reflexivity | eexists; reflexivity ] ]).
Qed.

(** A constructor that returns has decoded an entity whose attributes were
    unset but for the workaround flag. *)
Lemma new_cases (cls : class) (nd : Node) (vs : Values) (refresh : bool)
    (delay : option Z) (self : Entity) :
  new cls nd vs refresh delay = Ok tt self ->
  exists zw,
    update_properties cls
      (mkEntity nd vs None None delay refresh zw false None None None)
    = Ok tt self.
Proof.
  intros N. destruct (new_shape cls nd vs refresh delay) as [Hb Hp].
  destruct (blank (manufacturer_id nd)) eqn:Bm;
    [ exists None; rewrite <- Hb by (left; reflexivity); exact N | ].
  destruct (blank (product_id nd)) eqn:Bp;
    [ exists None; rewrite <- Hb by (right; reflexivity); exact N | ].
  destruct (Py.int16 (manufacturer_id nd)) as [m | ] eqn:Em.
  - destruct (Py.int16 (product_id nd)) as [p | ] eqn:Ep.
    + eexists. rewrite <- (Hp m p) by reflexivity. exact N.
    + destruct (new_bad_ids cls nd vs refresh delay Bm Bp) as [s E];
        [right; exact Ep | ].
      rewrite E in N. discriminate.
  - destruct (new_bad_ids cls nd vs refresh delay Bm Bp) as [s E];
      [left; exact Em | ].
    rewrite E in N. discriminate.
Qed.

(** Without a color value or a color-channels value the decode of a colour
    light keeps the cached bitmask. *)
Lemma decode_without_color_value_aux (s : Entity) :
  color (values s) = None \/ color_channels (values s) = None ->
  ZwaveColorLight_update_properties s = ZwaveDimmer_update_properties s
  /\ _color_channels (after (ZwaveColorLight_update_properties s))
     = _color_channels s.
Proof.
  intros H. decode.
  destruct (brightness_state (primary (values s))) as [e | bs]; decode.
  - split; reflexivity.
  - destruct H as [H | H]; rewrite H.
    + split; reflexivity.
    + destruct (color (values s)); split; reflexivity.
Qed.

(** A decode keeps the workaround flag, and without the workaround the
    colour temperature. *)
Lemma update_keeps (cls : class) (s : Entity) :
  let s' := after (update_properties cls s) in
  _zw098 s' = _zw098 s
  /\ (truthy (_zw098 s) = false -> _ct s' = _ct s).
Proof.
  cbv zeta. destruct cls; unfold update_properties; decode.
  - destruct (brightness_state (primary (values s))); decode;
      split; reflexivity.
  - destruct (brightness_state (primary (values s))); decode;
      [split; reflexivity | ].
    destruct (color (values s)) as [cv | ]; [ | split; reflexivity ].
    destruct (color_channels (values s)) as [chv | ];
      [ | split; reflexivity ].
    decode.
    destruct (truthy (_zw098 s)) eqn:Zw;
      repeat (match goal with
              | |- context [match ?x with _ => _ end] =>
                  lazymatch x with
                  | context [match ?y with _ => _ end] => fail
                  | _ => destruct x eqn:?
                  end
              end; decode);
      split; try reflexivity; intros; discriminate.
Qed.

(** So does [turn_on] of a colour light. *)
Lemma color_turn_on_keeps (kwargs : Kwargs) (s : Entity) :
  let s' := after (ZwaveColorLight_turn_on kwargs s) in
  _zw098 s' = _zw098 s
  /\ (truthy (_zw098 s) = false -> _ct s' = _ct s).
Proof.
  cbv zeta. encode.
  destruct (truthy (_zw098 s)) eqn:Zw; cases;
    repeat match goal with
      | |- context [after (ZwaveDimmer_turn_on kwargs ?x)] =>
          let Hc := fresh "Hc" in
          let Hz := fresh "Hz" in
          destruct (dimmer_turn_on_frame kwargs x) as (_ & Hc & _ & Hz & _);
          rewrite Hc, Hz
      end;
    cbn; split; try reflexivity; intros; discriminate.
Qed.

Lemma perform_keeps (cls : class) (s : Entity) (c : call) :
  _zw098 (perform cls s c) = _zw098 s
  /\ (truthy (_zw098 s) = false -> _ct (perform cls s c) = _ct s).
Proof.
  destruct c as [kwargs | | | vs]; unfold perform.
  - destruct cls; unfold turn_on.
    + destruct (dimmer_turn_on_frame kwargs s) as (_ & Hc & _ & Hz & _).
      rewrite Hc, Hz. split; reflexivity.
    + apply color_turn_on_keeps.
  - unfold ZwaveDimmer_turn_off, node_set_dimmer, bind, gets, modify, ret.
    match goal with
    | |- context [if ?b then _ else _] => destruct b
    end; split; reflexivity.
  - apply update_keeps.
  - split; reflexivity.
Qed.

(** X8: when both device ids are present and hexadecimal, the constructor
    enables the ZW098 workaround exactly for manufacturer 0x86 with product
    0x62, for either class; with a blank id it never does. *)
Theorem workaround_assignment (cls : class) (nd : Node) (vs : Values)
    (refresh : bool) (delay : option Z) (self : Entity) :
  new cls nd vs refresh delay = Ok tt self ->
  (blank (manufacturer_id nd) = true \/ blank (product_id nd) = true ->
   _zw098 self = None)
  /\ (forall m p,
        blank (manufacturer_id nd) = false ->
        blank (product_id nd) = false ->
        Py.int16 (manufacturer_id nd) = Some m ->
        Py.int16 (product_id nd) = Some p ->
        _zw098 self = (if (m =? 0x86) && (p =? 0x62) then Some 1 else None)).
Proof.
  intros N. destruct (new_shape cls nd vs refresh delay) as [Hb Hp].
  split.
  - intros B. rewrite (Hb B) in N.
    match type of N with
    | update_properties cls ?s0 = _ =>
        destruct (update_keeps cls s0) as [Hz _]; rewrite N in Hz
    end.
    exact Hz.
  - intros m p Bm Bp Em Ep. rewrite (Hp m p Bm Bp Em Ep) in N.
    match type of N with
    | update_properties cls ?s0 = _ =>
        destruct (update_keeps cls s0) as [Hz _]; rewrite N in Hz
    end.
    exact Hz.
Qed.

(** X9: a colour light constructed while the device has no color value or
    no color-channels value, and without the workaround, has no cached
    bitmask; [turn_on] with an RGB colour (and no colour temperature) then
    raises [TypeError] after storing the colour: nothing is written and no
    dimmer command is sent. *)
Theorem turn_on_rgb_before_first_decode (nd : Node) (vs : Values)
    (refresh : bool) (delay : option Z) (self : Entity) (kwargs : Kwargs)
    (rgb : list Z) :
  new ZwaveColorLight nd vs refresh delay = Ok tt self ->
  color vs = None \/ color_channels vs = None ->
  truthy (_zw098 self) = false ->
  ATTR_COLOR_TEMP kwargs = None ->
  ATTR_RGB_COLOR kwargs = Some rgb ->
  ZwaveColorLight_turn_on kwargs self
  = Raise Py.TypeError (set_rgb (Some rgb) self).
Proof.
  intros N Hv Zw Ht Hrgb.
  assert (Cc : _color_channels self = None).
  { destruct (new_cases ZwaveColorLight nd vs refresh delay self N)
      as [zw E].
    unfold update_properties in E.
    match type of E with
    | ZwaveColorLight_update_properties ?s0 = _ =>
        destruct (decode_without_color_value_aux s0 Hv) as [_ Hk]
    end.
    rewrite E in Hk. exact Hk. }
  encode. rewrite Ht, Hrgb. encode. rewrite Zw. encode.
  rewrite Cc. reflexivity.
Qed.

(** X10: the workaround flag of an entity never changes after construction,
    and an entity constructed without the workaround never has a colour
    temperature: [color_temp] is absent after every sequence of [turn_on],
    [turn_off] and [update_properties] calls and value changes. *)
Theorem color_temp_needs_workaround (cls : class) (nd : Node) (vs : Values)
    (refresh : bool) (delay : option Z) (self : Entity) (calls : list call) :
  new cls nd vs refresh delay = Ok tt self ->
  _zw098 (perform_all cls calls self) = _zw098 self
  /\ (truthy (_zw098 self) = false ->
      color_temp (perform_all cls calls self) = None).
Proof.
  intros N.
  assert (C0 : truthy (_zw098 self) = false -> _ct self = None).
  { intros Zw.
    destruct (new_cases cls nd vs refresh delay self N) as [zw E].
    match type of E with
    | update_properties cls ?s0 = _ =>
        destruct (update_keeps cls s0) as [Hz Hc]
    end.
    rewrite E in Hz, Hc. cbn [after] in Hz, Hc.
    rewrite Hc by (rewrite <- Hz; exact Zw). reflexivity. }
  clear N. unfold perform_all, color_temp. revert self C0.
  induction calls as [ | c calls IH]; intros self C0; cbn [fold_left].
  - split; [reflexivity | exact C0].
  - destruct (perform_keeps cls self c) as [Hz Hc].
    destruct (IH (perform cls self c)) as [IHz IHc].
    + intros Zw. rewrite Hz in Zw. rewrite (Hc Zw). exact (C0 Zw).
    + split.
      * rewrite IHz. exact Hz.
      * intros Zw. apply IHc. rewrite Hz. exact Zw.
Qed.

(** *** Round trips through the color value *)

Ltac written :=
  match goal with
  | |- context [after (ZwaveDimmer_turn_on ?kwargs ?s)] =>
      let Hv := fresh "Hv" in
      let Hz := fresh "Hz" in
      destruct (dimmer_turn_on_frame kwargs s) as (Hv & _ & _ & Hz & _);
      set (written := after (ZwaveDimmer_turn_on kwargs s)) in *;
      cbn [values set_color_data set_rgb set_ct _zw098] in Hv, Hz
  end.

(** X11: on a device without the workaround whose bitmask has a white
    channel, [turn_on] with an RGB colour writes the four bytes that
    [color_rgb_to_rgbw] returns, followed by a zero byte, and the decode of
    that payload blends the fourth byte back: [rgb_color] is
    [color_rgbw_to_rgb] of those four bytes, whether the bitmask has the
    warm channel, the cold channel or both. *)
Theorem rgbw_round_trip (kwargs : Kwargs) (self : Entity)
    (cv : Value string) (chv : Value Z) (bs : Py.num * state_t)
    (r g b r' g' b' w' : Z) :
  truthy (_zw098 self) = false ->
  color (values self) = Some cv ->
  color_channels (values self) = Some chv ->
  _color_channels self = Some (data chv) ->
  nonzero (Z.land (data chv) COLOR_CHANNEL_WARM_WHITE)
  || nonzero (Z.land (data chv) COLOR_CHANNEL_COLD_WHITE) = true ->
  brightness_state (primary (values self)) = inr bs ->
  ATTR_COLOR_TEMP kwargs = None ->
  ATTR_RGB_COLOR kwargs = Some [r; g; b] ->
  color_rgb_to_rgbw r g b = [r'; g'; b'; w'] ->
  0 <= r' <= 255 -> 0 <= g' <= 255 -> 0 <= b' <= 255 -> 0 <= w' <= 255 ->
  let written := after (ZwaveColorLight_turn_on kwargs self) in
  color_data written
  = Some (String "#" (Py.format_02x r' ++ Py.format_02x g'
                      ++ Py.format_02x b' ++ Py.format_02x w' ++ "00"))%string
  /\ exists self',
       ZwaveColorLight_update_properties written = Ok tt self'
       /\ rgb_color self'
          = report (data chv) (color_rgbw_to_rgb r' g' b' w').
Proof.
  intros Zw Hc Hch Hcc Wh B Ht Hrgb Hw Hr Hg Hb Hww. cbv zeta.
  destruct (format_02x_byte r' Hr) as (r1 & r0 & Fr & Ir).
  destruct (format_02x_byte g' Hg) as (g1 & g0 & Fg & Ig).
  destruct (format_02x_byte b' Hb) as (b1 & b0 & Fb & Ib).
  destruct (format_02x_byte w' Hww) as (w1 & w0 & Fw & Iw).
  encode. rewrite Ht, Hrgb. encode. rewrite Zw. encode.
  rewrite Hcc. encode. rewrite Wh. encode.
  rewrite Hc, Hw. unfold append_hex. cbn [fold_left].
  rewrite Fr, Fg, Fb, Fw. cbn [append Py.truthy]. encode.
  written. rewrite Hc in Hv. cbn [option_map] in Hv.
  split.
  - unfold color_data. rewrite Hv. reflexivity.
  - assert (D : forall w c,
               warm_level (data chv)
                 (String "#" (String r1 (String r0 (String g1 (String g0
                    (String b1 (String b0 (String w1 (String w0 "00")))))))))
               = Some w ->
               cold_level (data chv)
                 (String "#" (String r1 (String r0 (String g1 (String g0
                    (String b1 (String b0 (String w1 (String w0 "00")))))))))
               = Some c ->
               blended (data chv) r' g' b' w c
               = color_rgbw_to_rgb r' g' b' w' ->
               exists self',
                 ZwaveColorLight_update_properties written = Ok tt self'
                 /\ rgb_color self'
                    = report (data chv) (color_rgbw_to_rgb r' g' b' w')).
    { intros w c Ew Ec Eb.
      rewrite (decode_parsed written
                 (mkValue (value_id cv)
                    (String "#" (String r1 (String r0 (String g1 (String g0
                       (String b1 (String b0 (String w1 (String w0
                          "00"))))))))))
                 chv bs r' g' b' w c);
        rewrite ?Hv; try assumption; try reflexivity.
      rewrite Hz, Zw, Eb. unfold report, bind, modify, ret.
      destruct (has_rgb (data chv)); eexists; split; reflexivity. }
    unfold warm_level, cold_level, blended in D.
    destruct (nonzero (Z.land (data chv) COLOR_CHANNEL_WARM_WHITE));
      destruct (nonzero (Z.land (data chv) COLOR_CHANNEL_COLD_WHITE));
      try discriminate.
    + apply (D w' 0); [exact Iw | reflexivity | reflexivity].
    + apply (D w' 0); [exact Iw | reflexivity | reflexivity].
    + apply (D 0 w'); [reflexivity | exact Iw | reflexivity].
Qed.

(** X12: on a ZW098 device whose bitmask has both white channels, the
    payload that [turn_on] writes for a colour temperature decodes to the
    same choice: [color_temp] is WARM for a request above MID and COLD
    otherwise, with the colour [ct_to_rgb] of it. *)
Theorem zw098_color_temp_round_trip (kwargs : Kwargs) (self : Entity)
    (temp : Py.num) (cv : Value string) (chv : Value Z)
    (bs : Py.num * state_t) (warm cold : list Z) :
  truthy (_zw098 self) = true ->
  color (values self) = Some cv ->
  color_channels (values self) = Some chv ->
  nonzero (Z.land (data chv) COLOR_CHANNEL_WARM_WHITE) = true ->
  nonzero (Z.land (data chv) COLOR_CHANNEL_COLD_WHITE) = true ->
  brightness_state (primary (values self)) = inr bs ->
  ATTR_COLOR_TEMP kwargs = Some temp ->
  ct_to_rgb TEMP_WARM_HASS = inr warm ->
  ct_to_rgb TEMP_COLD_HASS = inr cold ->
  exists self',
    ZwaveColorLight_update_properties
      (after (ZwaveColorLight_turn_on kwargs self))
    = Ok tt self'
    /\ color_temp self'
       = Some (if Py.gt temp TEMP_MID_HASS then TEMP_WARM_HASS
               else TEMP_COLD_HASS)
    /\ rgb_color self'
       = report (data chv)
           (if Py.gt temp TEMP_MID_HASS then warm else cold).
Proof.
  intros Zw Hc Hch W C B Ht Ew Ec.
  encode. rewrite Ht. encode. rewrite Zw.
  destruct (Py.gt temp TEMP_MID_HASS); encode; rewrite Hc;
    written; rewrite Hc in Hv; cbn [option_map] in Hv.
  - rewrite (decode_parsed written (mkValue (value_id cv) "#000000ff00"%string)
               chv bs 0 0 0 255 0);
      rewrite ?Hv; try assumption; try reflexivity;
      try (unfold warm_level, cold_level; rewrite ?W, ?C; reflexivity).
    rewrite Hz, Zw. change (255 >? 0) with true. cbv iota.
    unfold bind, modify, lift, ret. rewrite Ew. unfold ret, report.
    destruct (has_rgb (data chv)); eexists;
      (split; [reflexivity | split; reflexivity]).
  - rewrite (decode_parsed written (mkValue (value_id cv) "#00000000ff"%string)
               chv bs 0 0 0 0 255);
      rewrite ?Hv; try assumption; try reflexivity;
      try (unfold warm_level, cold_level; rewrite ?W, ?C; reflexivity).
    rewrite Hz, Zw. change (0 >? 0) with false. change (255 >? 0) with true.
    cbv iota.
    unfold bind, modify, lift, ret. rewrite Ec. unfold ret, report.
    destruct (has_rgb (data chv)); eexists;
      (split; [reflexivity | split; reflexivity]).
Qed.

(** X13: on a ZW098 device, [turn_on] with an RGB colour of three bytes
    never consults the cached bitmask: it writes the triple followed by two
    zero bytes, and the decode of that payload, whatever the bitmask, finds
    both white levels zero, sets [color_temp] to MID and exposes the same
    triple. *)
Theorem zw098_rgb_round_trip (kwargs : Kwargs) (self : Entity)
    (cv : Value string) (chv : Value Z) (bs : Py.num * state_t)
    (r g b : Z) :
  0 <= r <= 255 -> 0 <= g <= 255 -> 0 <= b <= 255 ->
  truthy (_zw098 self) = true ->
  color (values self) = Some cv ->
  color_channels (values self) = Some chv ->
  brightness_state (primary (values self)) = inr bs ->
  ATTR_COLOR_TEMP kwargs = None ->
  ATTR_RGB_COLOR kwargs = Some [r; g; b] ->
  let written := after (ZwaveColorLight_turn_on kwargs self) in
  color_data written
  = Some (String "#" (Py.format_02x r ++ Py.format_02x g
                      ++ Py.format_02x b ++ "0000"))%string
  /\ exists self',
       ZwaveColorLight_update_properties written = Ok tt self'
       /\ color_temp self' = Some TEMP_MID_HASS
       /\ rgb_color self' = report (data chv) [r; g; b].
Proof.
  intros Hr Hg Hb Zw Hc Hch B Ht Hrgb. cbv zeta.
  destruct (format_02x_byte r Hr) as (r1 & r0 & Fr & Ir).
  destruct (format_02x_byte g Hg) as (g1 & g0 & Fg & Ig).
  destruct (format_02x_byte b Hb) as (b1 & b0 & Fb & Ib).
  encode. rewrite Ht, Hrgb. encode. rewrite Zw. encode.
  rewrite Hc. unfold append_hex. cbn [fold_left].
  rewrite Fr, Fg, Fb. cbn [append Py.truthy]. encode.
  written. rewrite Hc in Hv. cbn [option_map] in Hv.
  split.
  - unfold color_data. rewrite Hv. reflexivity.
  - rewrite (decode_parsed written
               (mkValue (value_id cv)
                  (String "#" (String r1 (String r0 (String g1 (String g0
                     (String b1 (String b0 "0000"))))))))
               chv bs r g b 0 0);
      rewrite ?Hv; try assumption; try reflexivity;
      try (unfold warm_level, cold_level;
           destruct (nonzero (Z.land (data chv) COLOR_CHANNEL_WARM_WHITE));
           destruct (nonzero (Z.land (data chv) COLOR_CHANNEL_COLD_WHITE));
           reflexivity).
    rewrite Hz, Zw. change (0 >? 0) with false. cbv iota.
    unfold bind, modify, ret, report.
    destruct (has_rgb (data chv)); eexists;
      (split; [reflexivity | split; reflexivity]).
Qed.

(** *** Device creation *)

(** A decode keeps what the constructor stored of the configuration. *)
Lemma update_keeps_config (cls : class) (s : Entity) :
  let s' := after (update_properties cls s) in
  _refresh_value s' = _refresh_value s /\ _delay s' = _delay s.
Proof.
  cbv zeta. destruct cls; unfold update_properties; decode.
  - destruct (brightness_state (primary (values s))); decode;
      split; reflexivity.
  - destruct (brightness_state (primary (values s))); decode;
      [split; reflexivity | ].
    destruct (color (values s)) as [cv | ]; [ | split; reflexivity ].
    destruct (color_channels (values s)) as [chv | ];
      [ | split; reflexivity ].
    decode.
    repeat (match goal with
            | |- context [match ?x with _ => _ end] =>
                lazymatch x with
                | context [match ?y with _ => _ end] => fail
                | _ => destruct x eqn:?
                end
            end; decode);
      split; reflexivity.
Qed.

(** [get_device] is the constructor of the class it chooses. *)
Lemma get_device_new (has_command_class : Z -> bool) (nd : Node)
    (vs : Values) (node_config : NodeConfig) :
  get_device has_command_class nd vs node_config
  = ((if has_command_class COMMAND_CLASS_SWITCH_COLOR
      then ZwaveColorLight else ZwaveDimmer),
     new (if has_command_class COMMAND_CLASS_SWITCH_COLOR
          then ZwaveColorLight else ZwaveDimmer)
       nd vs (CONF_REFRESH_VALUE node_config)
       (CONF_REFRESH_DELAY node_config)).
Proof.
  unfold get_device.
  destruct (has_command_class COMMAND_CLASS_SWITCH_COLOR); reflexivity.
Qed.

(** X14: the entity that [get_device] returns is a colour light exactly when
    the node has the colour-switch command class, and it holds the refresh
    flag and the delay of the node configuration.  Its features are those of
    a dimmer, with the RGB feature for a colour light, and with the
    colour-temperature feature only for a colour light whose device ids are
    those of the ZW098 bulb; a blank id never gives that feature. *)
Theorem created_device_features (has_command_class : Z -> bool) (nd : Node)
    (vs : Values) (node_config : NodeConfig) (cls : class) (self : Entity) :
  get_device has_command_class nd vs node_config = (cls, Ok tt self) ->
  let colour := has_command_class COMMAND_CLASS_SWITCH_COLOR in
  cls = (if colour then ZwaveColorLight else ZwaveDimmer)
  /\ _refresh_value self = CONF_REFRESH_VALUE node_config
  /\ _delay self = CONF_REFRESH_DELAY node_config
  /\ (blank (manufacturer_id nd) = true \/ blank (product_id nd) = true ->
      forall i,
        Z.testbit (supported_features cls self) i
        = Z.testbit SUPPORT_BRIGHTNESS i
          || colour && Z.testbit SUPPORT_RGB_COLOR i)
  /\ (forall m p,
        blank (manufacturer_id nd) = false ->
        blank (product_id nd) = false ->
        Py.int16 (manufacturer_id nd) = Some m ->
        Py.int16 (product_id nd) = Some p ->
        forall i,
          Z.testbit (supported_features cls self) i
          = Z.testbit SUPPORT_BRIGHTNESS i
            || colour
               && (Z.testbit SUPPORT_RGB_COLOR i
                   || (m =? AEOTEC) && (p =? AEOTEC_ZW098_LED_BULB)
                      && Z.testbit SUPPORT_COLOR_TEMP i)).
Proof.
  intros G. cbv zeta.
  assert (N : new cls nd vs (CONF_REFRESH_VALUE node_config)
                (CONF_REFRESH_DELAY node_config) = Ok tt self
              /\ cls = (if has_command_class COMMAND_CLASS_SWITCH_COLOR
                        then ZwaveColorLight else ZwaveDimmer)).
  { rewrite get_device_new in G. apply pair_equal_spec in G.
    destruct G as [G1 G2]. subst cls. split; [exact G2 | reflexivity]. }
  destruct N as [N Hcls].
  destruct (new_shape cls nd vs (CONF_REFRESH_VALUE node_config)
              (CONF_REFRESH_DELAY node_config)) as [Hb Hp].
  assert (F : forall zw,
             update_properties cls
               (mkEntity nd vs None None (CONF_REFRESH_DELAY node_config)
                  (CONF_REFRESH_VALUE node_config) zw false None None None)
             = Ok tt self ->
             _refresh_value self = CONF_REFRESH_VALUE node_config
             /\ _delay self = CONF_REFRESH_DELAY node_config
             /\ _zw098 self = zw).
  { intros zw E.
    match type of E with
    | update_properties cls ?s0 = _ =>
        destruct (update_keeps_config cls s0) as [Hr Hd];
        destruct (update_keeps cls s0) as [Hz _]
    end.
    rewrite E in Hr, Hd, Hz. repeat split; assumption. }
  destruct (new_cases cls nd vs _ _ self N) as [zw0 E0].
  destruct (F zw0 E0) as (Hr & Hd & _).
  split; [exact Hcls | ]. split; [exact Hr | ]. split; [exact Hd | ].
  split.
  - intros B i. rewrite (Hb B) in N. destruct (F None N) as (_ & _ & Hz).
    rewrite Hcls.
    destruct (has_command_class COMMAND_CLASS_SWITCH_COLOR);
      unfold supported_features, ZwaveDimmer_supported_features,
        ZwaveColorLight_supported_features, SUPPORT_ZWAVE_DIMMER,
        SUPPORT_ZWAVE_COLOR.
    + rewrite Hz. change (truthy None) with false. cbv iota.
      cbn [andb]. apply Z.lor_spec.
    + cbn [andb]. rewrite orb_false_r. reflexivity.
  - intros m p Bm Bp Em Ep i. rewrite (Hp m p Bm Bp Em Ep) in N.
    destruct (F _ N) as (_ & _ & Hz).
    rewrite Hcls.
    destruct (has_command_class COMMAND_CLASS_SWITCH_COLOR);
      unfold supported_features, ZwaveDimmer_supported_features,
        ZwaveColorLight_supported_features, SUPPORT_ZWAVE_DIMMER,
        SUPPORT_ZWAVE_COLOR, SUPPORT_ZWAVE_COLORTEMP.
    + rewrite Hz. cbn [andb].
      destruct ((m =? AEOTEC) && (p =? AEOTEC_ZW098_LED_BULB));
        [ change (truthy (Some 1)) with true
        | change (truthy None) with false ];
        cbv iota; cbn [andb];
        rewrite ?Z.lor_spec, ?orb_false_r, ?orb_assoc; reflexivity.
    + cbn [andb]. rewrite orb_false_r. reflexivity.
Qed.

(** *** The refresh timer *)

Lemma in_world_timers (c : M unit) (w : World) :
  let w' := snd (in_world c w) in
  _timer w' = _timer w /\ waiting w' = waiting w
  /\ created w' = created w /\ refreshes w' = refreshes w.
Proof.
  cbv zeta. unfold in_world.
  destruct (c (entity w)); repeat split; reflexivity.
Qed.

Lemma cancel_one (t u : nat) : cancel t [u] = [] \/ cancel t [u] = [u].
Proof.
  unfold cancel. cbn [filter].
  destruct (negb (Nat.eqb u t)); [right | left]; reflexivity.
Qed.

Lemma happen_keeps (cls : class) (w : World) (ev : event) :
  one_waits w ->
  (refreshes w + List.length (waiting w) <= created w)%nat ->
  let w' := happen cls w ev in
  one_waits w'
  /\ (refreshes w' + List.length (waiting w') <= created w')%nat
  /\ created w'
     = (created w + if is_change ev then
                      if _refresh_value (entity w)
                         && negb (_refreshing (entity w))
                      then 1 else 0
                    else 0)%nat.
Proof.
  intros One Le. cbv zeta. destruct ev as [ | t]; unfold happen, is_change.
  - unfold ZwaveDimmer_value_changed.
    destruct (_refresh_value (entity w)); cbn [andb].
    + destruct (_refreshing (entity w)); cbn [negb].
      * match goal with
        | |- context [in_world ?c ?x] =>
            destruct (in_world_timers c x) as (Ht & Hw & Hc & Hr)
        end.
        cbn [_timer waiting created refreshes] in Ht, Hw, Hc, Hr.
        unfold one_waits. rewrite Ht, Hw, Hc, Hr.
        split; [exact One | split; [exact Le | lia]].
      * cbn [snd]. unfold one_waits.
        cbn [_timer waiting created refreshes].
        split; [ | split; [ | lia ] ].
        -- right. exists (created w). split; [reflexivity | ].
           destruct One as [E | (t & Et & E)]; rewrite ?Et, E.
           ++ destruct (_timer w); reflexivity.
           ++ cbn [isAlive existsb]. rewrite Nat.eqb_refl. cbn [orb].
              unfold cancel. cbn [filter]. rewrite Nat.eqb_refl.
              reflexivity.
        -- destruct One as [E | (t & Et & E)]; rewrite ?Et, E in *.
           ++ assert (X : match _timer w with
                          | Some t => if isAlive t [] then cancel t []
                                      else []
                          | None => []
                          end = @nil nat)
                by (destruct (_timer w); reflexivity).
              rewrite X. cbn [List.length] in *. lia.
           ++ cbn [isAlive existsb]. rewrite Nat.eqb_refl. cbn [orb].
              unfold cancel. cbn [filter]. rewrite Nat.eqb_refl.
              cbn [negb List.length] in *. lia.
    + match goal with
      | |- context [in_world ?c ?x] =>
          destruct (in_world_timers c x) as (Ht & Hw & Hc & Hr)
      end.
      unfold one_waits. rewrite Ht, Hw, Hc, Hr.
      split; [exact One | split; [exact Le | lia]].
  - unfold timer_fires.
    destruct (isAlive t (waiting w)) eqn:A.
    + unfold _refresh_value_callback, one_waits.
      cbn [_timer waiting created refreshes entity].
      destruct One as [E | (u & Eu & E)]; rewrite E in *.
      * discriminate.
      * cbn [isAlive existsb] in A. rewrite orb_false_r in A.
        apply Nat.eqb_eq in A. subst u.
        unfold cancel. cbn [filter]. rewrite Nat.eqb_refl.
        cbn [negb List.length] in *.
        split; [left; reflexivity | split; lia].
    + split; [exact One | split; [exact Le | lia]].
Qed.

Lemma happen_bound (cls : class) (w : World) (ev : event) :
  one_waits w ->
  (refreshes w + List.length (waiting w) <= created w)%nat ->
  (created (happen cls w ev)
   <= created w + if is_change ev then 1 else 0)%nat.
Proof.
  intros One Le. destruct (happen_keeps cls w ev One Le) as (_ & _ & E).
  rewrite E. destruct (is_change ev); [ | lia ].
  destruct (_refresh_value (entity w) && negb (_refreshing (entity w))); lia.
Qed.

(** X15: whatever value changes and timer firings happen to an entity, and
    in whatever order, at most one refresh timer is waiting, and it is the
    one that [self._timer] names; every refresh comes from a timer of its
    own, so refreshes and waiting timers together never outnumber the
    timers created, which never outnumber the value changes. *)
Theorem at_most_one_timer_waits (cls : class) (s : Entity)
    (events : list event) :
  let w := happen_all cls events (initial_world s) in
  (waiting w = [] \/ exists t, _timer w = Some t /\ waiting w = [t])
  /\ (refreshes w + List.length (waiting w) <= created w)%nat
  /\ (created w <= changes events)%nat.
Proof.
  cbv zeta.
  assert (G : forall evs w k,
             one_waits w ->
             (refreshes w + List.length (waiting w) <= created w)%nat ->
             (created w <= k)%nat ->
             one_waits (happen_all cls evs w)
             /\ (refreshes (happen_all cls evs w)
                 + List.length (waiting (happen_all cls evs w))
                 <= created (happen_all cls evs w))%nat
             /\ (created (happen_all cls evs w) <= k + changes evs)%nat).
  { induction evs as [ | ev evs IH]; intros w k One Le Hk.
    - unfold happen_all, changes. cbn [fold_left filter List.length].
      split; [exact One | split; [exact Le | lia]].
    - unfold happen_all. cbn [fold_left]. fold (happen_all cls evs).
      destruct (happen_keeps cls w ev One Le) as (One' & Le' & _).
      pose proof (happen_bound cls w ev One Le) as B.
      destruct (IH (happen cls w ev)
                  (k + if is_change ev then 1 else 0)%nat One' Le')
        as (I1 & I2 & I3); [lia | ].
      split; [exact I1 | split; [exact I2 | ]].
      unfold changes in *. cbn [filter]. revert I3. unfold happen_all.
      destruct (is_change ev); cbn [List.length]; lia. }
  destruct (G events (initial_world s) 0%nat) as (G1 & G2 & G3).
  - left. reflexivity.
  - cbn. lia.
  - cbn. lia.
  - split; [exact G1 | split; [exact G2 | exact G3]].
Qed.

Lemma burst_world (cls : class) (s : Entity) (n : nat) :
  _refresh_value s = true ->
  _refreshing s = false ->
  happen_all cls (repeat Value_changed (S n)) (initial_world s)
  = mkWorld s (Some n) [n] (S n) 0.
Proof.
  intros R F. induction n as [ | n IH].
  - unfold happen_all, initial_world. cbn [repeat fold_left happen].
    unfold ZwaveDimmer_value_changed.
    cbn [entity _timer waiting created refreshes snd].
    rewrite R, F. reflexivity.
  - change (repeat Value_changed (S (S n)))
      with (Value_changed :: repeat Value_changed (S n)).
    rewrite repeat_cons. unfold happen_all in *.
    rewrite fold_left_app, IH. cbn [fold_left happen].
    unfold ZwaveDimmer_value_changed.
    cbn [entity _timer waiting created refreshes snd].
    rewrite R, F. cbn [isAlive existsb]. rewrite Nat.eqb_refl. cbn [orb].
    unfold cancel. cbn [filter]. rewrite Nat.eqb_refl. reflexivity.
Qed.

(** X16: a burst of value changes on an entity with delayed refresh is
    debounced.  After one or more changes in a row the base class has not
    been notified (the entity is as it was), and only the timer of the last
    change is waiting: the earlier ones do nothing when their delay comes,
    the last one refreshes the value once and marks the entity as
    refreshing.  The value change that follows is the one handed to the base
    class, with the mark removed. *)
Theorem burst_refreshes_once (cls : class) (s : Entity) (n : nat) :
  _refresh_value s = true ->
  _refreshing s = false ->
  let w := happen_all cls (repeat Value_changed (S n)) (initial_world s) in
  entity w = s
  /\ refreshes w = 0%nat
  /\ (forall t, t <> n -> timer_fires t w = w)
  /\ timer_fires n w = mkWorld (set_refreshing true s) (Some n) [] (S n) 1
  /\ ZwaveDimmer_value_changed cls (timer_fires n w)
     = in_world (ZWaveDeviceEntity_value_changed cls)
         (mkWorld s (Some n) [] (S n) 1).
Proof.
  intros R F. cbv zeta. rewrite (burst_world cls s n R F).
  assert (T : timer_fires n (mkWorld s (Some n) [n] (S n) 0)
              = mkWorld (set_refreshing true s) (Some n) [] (S n) 1).
  { unfold timer_fires, _refresh_value_callback.
    cbn [entity _timer waiting created refreshes isAlive existsb].
    rewrite Nat.eqb_refl. cbn [orb].
    unfold cancel. cbn [filter]. rewrite Nat.eqb_refl. reflexivity. }
  split; [reflexivity | ]. split; [reflexivity | ]. split; [ | split ].
  - intros t Ht. unfold timer_fires.
    cbn [waiting isAlive existsb].
    apply Nat.eqb_neq in Ht. rewrite Ht. reflexivity.
  - exact T.
  - rewrite T. unfold ZwaveDimmer_value_changed.
    cbn [entity _timer waiting created refreshes].
    destruct s; cbn in R, F |- *. subst. reflexivity.
Qed.

End Platform.

(** ** The platform on sample devices *)

Local Abbreviation decode0 :=
  (ZwaveColorLight_update_properties 500 154 sample_kelvin
     sample_temperature_rgb sample_rgbw_to_rgb).
Local Abbreviation turn_on0 := (ZwaveColorLight_turn_on 500 154 sample_rgb_to_rgbw).
Local Abbreviation new0 :=
  (new 500 154 sample_kelvin sample_temperature_rgb sample_rgbw_to_rgb).
Local Abbreviation ct_to_rgb0 :=
  (ct_to_rgb sample_kelvin sample_temperature_rgb).
Local Abbreviation bulb := (accepting_node "0086" "0062").
Local Abbreviation perform_all0 :=
  (perform_all 500 154 sample_kelvin sample_temperature_rgb
     sample_rgb_to_rgbw sample_rgbw_to_rgb).
Local Abbreviation update_properties0 :=
  (update_properties 500 154 sample_kelvin sample_temperature_rgb
     sample_rgbw_to_rgb).
Local Abbreviation get_device0 :=
  (get_device 500 154 sample_kelvin sample_temperature_rgb
     sample_rgbw_to_rgb 0x33).

(** Level 50 of 99 is brightness 129. *)
Lemma brightness_state_levels_witness :
  brightness_state (mkValue 7 50)
  = inr (Py.Float (Py.float_of_Z 129), STATE_ON).
Proof.
  apply (brightness_state_levels (mkValue 7 50)). cbn. lia.
Defined.



(** A rejected [turn_on] with brightness 10 on a light that is on at 129. *)
Lemma rejected_write_state_witness :
  let self :=
    sample_entity rejecting_node (sample_values "#ff0080" 0x1c) None None in
  let kwargs := mkKwargs (Some (Py.Int 10)) None None in
  is_on (after (ZwaveDimmer_turn_on kwargs self)) = is_on self
  /\ brightness (after (ZwaveDimmer_turn_on kwargs self)) = Some (Py.Int 10)
  /\ is_on (after (ZwaveDimmer_turn_off self)) = is_on self
  /\ brightness (after (ZwaveDimmer_turn_off self)) = brightness self.
Proof.
  cbv zeta.
  apply (rejected_write_state (mkKwargs (Some (Py.Int 10)) None None)
           (sample_entity rejecting_node (sample_values "#ff0080" 0x1c)
              None None)).
  intros level. reflexivity.
Defined.

(** C4 as stated fails: the command is rejected and the brightness is no
    longer what it was. *)
Lemma rejected_write_state_counterexample :
  let self :=
    sample_entity rejecting_node (sample_values "#ff0080" 0x1c) None None in
  rejects self
  /\ brightness
       (after (ZwaveDimmer_turn_on (mkKwargs (Some (Py.Int 10)) None None)
                 self))
     <> brightness self.
Proof.
  cbv zeta. split.
  - intros level. reflexivity.
  - vm_compute. discriminate.
Qed.

(** A blank manufacturer id, and an id that is not hexadecimal. *)
Lemma init_device_ids_witness :
  (exists self,
     new0 ZwaveDimmer (accepting_node "  " "0062")
       (sample_values "#ff0080" 0x1c) false None = Ok tt self
     /\ _zw098 self = None)
  /\ (exists self,
        new0 ZwaveColorLight (accepting_node "zz" "0062")
          (sample_values "#ff0080" 0x1c) false None
        = Raise Py.ValueError self).
Proof.
  split.
  - apply (proj1 (init_device_ids 500 154 sample_kelvin sample_temperature_rgb
                    sample_rgbw_to_rgb ZwaveDimmer
                    (accepting_node "  " "0062")
                    (sample_values "#ff0080" 0x1c) false None
                    (Py.Float (Py.float_of_Z 129), STATE_ON) eq_refl)).
    left. reflexivity.
  - apply (proj2 (init_device_ids 500 154 sample_kelvin sample_temperature_rgb
                    sample_rgbw_to_rgb ZwaveColorLight
                    (accepting_node "zz" "0062")
                    (sample_values "#ff0080" 0x1c) false None
                    (Py.Float (Py.float_of_Z 129), STATE_ON) eq_refl)).
    + reflexivity.
    + reflexivity.
    + left. reflexivity.
Defined.

(** C3 as stated fails: a manufacturer id that is not hexadecimal makes the
    constructor raise. *)
Lemma init_device_ids_counterexample :
  exists self,
    new0 ZwaveDimmer (accepting_node "zz" "0062")
      (sample_values "#ff0080" 0x1c) false None
    = Raise Py.ValueError self.
Proof. eexists. vm_compute. reflexivity. Qed.

(** The payload [#ff00] on an RGB device. *)
Lemma short_payload_raises_witness :
  let self := sample_entity bulb (sample_values "#ff00" 0x1c) None None in
  exists self',
    decode0 self = Raise Py.ValueError self'
    /\ color_temp self' = color_temp self
    /\ ((String.length "#ff00" <= 5)%nat -> rgb_color self' = rgb_color self).
Proof.
  cbv zeta.
  apply (short_payload_raises 500 154 sample_kelvin sample_temperature_rgb
           sample_rgbw_to_rgb
           (sample_entity bulb (sample_values "#ff00" 0x1c) None None)
           (mkValue 8 "#ff00"%string) (mkValue 9 0x1c)
           (Py.Float (Py.float_of_Z 129), STATE_ON)).
  - reflexivity.
  - reflexivity.
  - reflexivity.
  - cbn. lia.
Defined.

(** C1 as stated fails: the payload [#ff0080] lacks the warm byte that the
    bitmask 0x1d requires; the decode raises [ValueError] to its caller and
    [rgb_color], absent before, is left at the parsed triple. *)
Lemma short_payload_counterexample :
  let self := sample_entity bulb (sample_values "#ff0080" 0x1d) None None in
  (String.length "#ff0080" < payload_length 0x1d)%nat
  /\ (exists self', decode0 self = Raise Py.ValueError self')
  /\ rgb_color self = None
  /\ rgb_color (after (decode0 self)) = Some [255; 0; 128].
Proof.
  cbv zeta. split; [ | split; [ | split ] ].
  - cbn. lia.
  - eexists. vm_compute. reflexivity.
  - reflexivity.
  - vm_compute. reflexivity.
Qed.

(** A device with the white channels only, holding a colour from an earlier
    decode: the decode of a complete payload removes it. *)
Lemma no_rgb_channels_no_rgb_witness :
  let self :=
    set_rgb (Some [1; 2; 3])
      (sample_entity bulb (sample_values "#ff00801020" 0x03) None None) in
  rgb_color self = Some [1; 2; 3]
  /\ exists self', decode0 self = Ok tt self' /\ rgb_color self' = None.
Proof.
  cbv zeta. split; [reflexivity | ].
  refine (proj1 (no_rgb_channels_no_rgb 500 154 sample_kelvin
                   sample_temperature_rgb sample_rgbw_to_rgb
                   (set_rgb (Some [1; 2; 3])
                      (sample_entity bulb (sample_values "#ff00801020" 0x03)
                         None None))
                   (mkValue 8 "#ff00801020"%string) (mkValue 9 0x03)
                   (Py.Float (Py.float_of_Z 129), STATE_ON) 255 0 128
                   _ _ _ _ _ _ _)
            16 32 [] [] _ _ _);
    try (intros; discriminate); vm_compute; reflexivity.
Defined.

(** The same device with a payload that stops after the RGB bytes: the
    decode raises and leaves the parsed triple in [rgb_color]. *)
Lemma no_rgb_channels_no_rgb_counterexample :
  let self :=
    sample_entity bulb (sample_values "#ff0080" 0x03) None None in
  has_rgb 0x03 = false
  /\ rgb_color self = None
  /\ exists self',
       decode0 self = Raise Py.ValueError self'
       /\ rgb_color self' = Some [255; 0; 128].
Proof.
  cbv zeta. split; [ | split ].
  - reflexivity.
  - reflexivity.
  - eexists. split; vm_compute; reflexivity.
Qed.

(** A ZW098 bulb with all five channels and the warm byte 0x10. *)
Lemma zw098_color_temperature_witness :
  exists self',
    decode0 (sample_entity bulb (sample_values "#ff00801000" 0x1f)
               (Some 1) None)
    = Ok tt self'
    /\ color_temp self' = Some (TEMP_WARM_HASS 500 154)
    /\ rgb_color self' = Some [255; 147; 41].
Proof.
  apply (proj1 (zw098_color_temperature 500 154 sample_kelvin
                  sample_temperature_rgb sample_rgbw_to_rgb
                  (sample_entity bulb (sample_values "#ff00801000" 0x1f)
                     (Some 1) None)
                  (mkValue 8 "#ff00801000"%string) (mkValue 9 0x1f)
                  (Py.Float (Py.float_of_Z 129), STATE_ON)
                  255 0 128 16 0
                  eq_refl eq_refl eq_refl eq_refl eq_refl eq_refl eq_refl
                  eq_refl eq_refl)).
  - lia.
  - reflexivity.
Defined.

(** C5 as stated fails: a ZW098 device whose bitmask has the white channels
    only decodes a warm level of 255 to [color_temp = WARM], but [rgb_color]
    is absent, not [ct_to_rgb(WARM)]. *)
Lemma zw098_color_temperature_counterexample :
  let self :=
    sample_entity bulb (sample_values "#000000ff00" 0x03) (Some 1) None in
  warm_level 0x03 "#000000ff00" = Some 255
  /\ ct_to_rgb0 (TEMP_WARM_HASS 500 154) = inr [255; 147; 41]
  /\ (exists self',
        decode0 self = Ok tt self'
        /\ color_temp self' = Some (TEMP_WARM_HASS 500 154)
        /\ rgb_color self' = None).
Proof.
  cbv zeta. split; [ | split ].
  - reflexivity.
  - vm_compute. reflexivity.
  - eexists. split; [ | split ]; vm_compute; reflexivity.
Qed.


(** A colour temperature requested from an ordinary RGBW light. *)
Lemma color_temp_ignored_witness :
  let self :=
    sample_entity bulb (sample_values "#ff00800000" 0x1f) None (Some 0x1f) in
  let self' := after (turn_on0 (mkKwargs None None (Some (Py.Int 400))) self) in
  values self' = values self
  /\ color_data self' = color_data self
  /\ color_temp self' = color_temp self
  /\ rgb_color self' = rgb_color self.
Proof.
  cbv zeta.
  apply (color_temp_ignored 500 154 sample_rgb_to_rgbw
           (mkKwargs None None (Some (Py.Int 400)))
           (sample_entity bulb (sample_values "#ff00800000" 0x1f) None
              (Some 0x1f))
           (Py.Int 400)).
  - reflexivity.
  - reflexivity.
Defined.

(** The triple (255, 0, 128) through an RGB light, read back by the entity
    that wrote it and by one that held another colour. *)
Lemma rgb_round_trip_witness :
  let self :=
    sample_entity bulb (sample_values "#000000" 0x1c) None (Some 0x1c) in
  let written :=
    after (turn_on0 (mkKwargs None (Some [255; 0; 128]) None) self) in
  color_data written = Some "#ff00800000"%string
  /\ (exists self',
        decode0 written = Ok tt self'
        /\ rgb_color self' = Some [255; 0; 128])
  /\ (exists self',
        decode0 (set_rgb (Some [1; 2; 3]) written) = Ok tt self'
        /\ rgb_color self' = Some [255; 0; 128]).
Proof.
  cbv zeta.
  assert (T := rgb_round_trip 500 154 sample_kelvin sample_temperature_rgb
                 sample_rgb_to_rgbw sample_rgbw_to_rgb
                 (mkKwargs None (Some [255; 0; 128]) None)
                 (sample_entity bulb (sample_values "#000000" 0x1c) None
                    (Some 0x1c))
                 (mkValue 8 "#000000"%string) (mkValue 9 0x1c)
                 (Py.Float (Py.float_of_Z 129), STATE_ON) 255 0 128).
  cbv zeta in T.
  destruct T as (A & B & C); try lia; try reflexivity.
  split; [exact A | split; [exact B | ] ].
  apply C; reflexivity.
Defined.

(** ** The further properties on sample devices *)

(** Brightness 128 is sent as level 49 and accepted. *)
Lemma turn_on_level_witness :
  let self :=
    sample_entity bulb (sample_values "#0000000000" 0x1f) None None in
  exists self',
    ZwaveDimmer_turn_on (mkKwargs (Some (Py.Int 128)) None None) self
    = Ok tt self'
    /\ dimmer_sent (node self') = [(7, 49)]
    /\ 0 <= 49 <= 99
    /\ brightness self' = Some (Py.Int 128)
    /\ is_on self' = true.
Proof.
  cbv zeta.
  apply (turn_on_level (mkKwargs (Some (Py.Int 128)) None None)
           (sample_entity bulb (sample_values "#0000000000" 0x1f) None None)
           128).
  - reflexivity.
  - lia.
Defined.

(** Level 50 decodes to brightness 129, which is sent back as 49 or 50. *)
Lemma brightness_round_trip_drift_witness :
  let self :=
    sample_entity bulb (sample_values "#0000000000" 0x1f) None None in
  exists self' level,
    ZwaveDimmer_turn_on
      (mkKwargs (Some (Py.Float (Py.float_of_Z 129))) None None) self
    = Ok tt self'
    /\ last_level self' = Some level
    /\ 50 - 1 <= level <= 50.
Proof.
  cbv zeta.
  apply (brightness_round_trip_drift
           (mkKwargs (Some (Py.Float (Py.float_of_Z 129))) None None)
           (sample_entity bulb (sample_values "#0000000000" 0x1f) None None)
           (mkValue 7 50) (Py.Float (Py.float_of_Z 129)) STATE_ON).
  - cbn. lia.
  - vm_compute. reflexivity.
  - reflexivity.
Defined.

(** A colour light whose device has no color value. *)
Lemma decode_without_color_value_witness :
  let self :=
    sample_entity bulb (mkValues (mkValue 7 50) None None) None None in
  decode0 self = ZwaveDimmer_update_properties self
  /\ _color_channels (after (decode0 self)) = _color_channels self
  /\ rgb_color (after (decode0 self)) = rgb_color self
  /\ color_temp (after (decode0 self)) = color_temp self.
Proof.
  cbv zeta.
  apply (decode_without_color_value 500 154 sample_kelvin
           sample_temperature_rgb sample_rgbw_to_rgb
           (sample_entity bulb (mkValues (mkValue 7 50) None None) None
              None)).
  left. reflexivity.
Defined.

(** A payload with both white bytes on an RGBW light with both channels:
    only the warm byte, 16, is blended in. *)
Lemma decode_blends_one_white_witness :
  let self :=
    sample_entity bulb (sample_values "#ff00801020" 0x1f) None None in
  exists self',
    decode0 self = Ok tt self'
    /\ rgb_color self' = Some [271; 16; 144]
    /\ (nonzero (Z.land 0x1f COLOR_CHANNEL_WARM_WHITE) = true ->
        blended sample_rgbw_to_rgb 0x1f 255 0 128 16 32
        = sample_rgbw_to_rgb 255 0 128 16)
    /\ _color_channels self' = Some 0x1f
    /\ color_temp self' = color_temp self.
Proof.
  cbv zeta.
  apply (decode_blends_one_white 500 154 sample_kelvin
           sample_temperature_rgb sample_rgbw_to_rgb
           (sample_entity bulb (sample_values "#ff00801020" 0x1f) None None)
           (mkValue 8 "#ff00801020"%string) (mkValue 9 0x1f)
           (Py.Float (Py.float_of_Z 129), STATE_ON) 255 0 128 16 32);
    vm_compute; reflexivity.
Defined.

(** The ids 0086 and 0062 enable the workaround. *)
Lemma workaround_assignment_witness :
  _zw098
    (after (new0 ZwaveColorLight bulb (sample_values "#ff00800000" 0x1f)
              false None))
  = Some 1.
Proof.
  refine (proj2 (workaround_assignment 500 154 sample_kelvin
                   sample_temperature_rgb sample_rgbw_to_rgb
                   ZwaveColorLight bulb (sample_values "#ff00800000" 0x1f)
                   false None
                   (after (new0 ZwaveColorLight bulb
                             (sample_values "#ff00800000" 0x1f) false None))
                   _)
            0x86 0x62 _ _ _ _);
    vm_compute; reflexivity.
Defined.

(** A colour light created before its device has a color value. *)
Lemma turn_on_rgb_before_first_decode_witness :
  let self :=
    after (new0 ZwaveColorLight (accepting_node "0086" "0001")
             (mkValues (mkValue 7 50) None None) false None) in
  turn_on0 (mkKwargs None (Some [255; 0; 128]) None) self
  = Raise Py.TypeError (set_rgb (Some [255; 0; 128]) self).
Proof.
  cbv zeta.
  apply (turn_on_rgb_before_first_decode 500 154 sample_kelvin
           sample_temperature_rgb sample_rgb_to_rgbw sample_rgbw_to_rgb
           (accepting_node "0086" "0001")
           (mkValues (mkValue 7 50) None None) false None
           (after (new0 ZwaveColorLight (accepting_node "0086" "0001")
                     (mkValues (mkValue 7 50) None None) false None))
           (mkKwargs None (Some [255; 0; 128]) None) [255; 0; 128]).
  - vm_compute. reflexivity.
  - left. reflexivity.
  - vm_compute. reflexivity.
  - reflexivity.
  - reflexivity.
Defined.

(** An ordinary RGB light that is asked for a colour temperature, decoded
    and turned off. *)
Lemma color_temp_needs_workaround_witness :
  let self :=
    after (new0 ZwaveColorLight (accepting_node "0086" "0001")
             (sample_values "#ff00800000" 0x1c) false None) in
  color_temp
    (perform_all0 ZwaveColorLight
       [Call_turn_on (mkKwargs None None (Some (Py.Int 400)));
        Call_update_properties; Call_turn_off]
       self)
  = None.
Proof.
  cbv zeta.
  refine (proj2 (color_temp_needs_workaround 500 154 sample_kelvin
                   sample_temperature_rgb sample_rgb_to_rgbw
                   sample_rgbw_to_rgb ZwaveColorLight
                   (accepting_node "0086" "0001")
                   (sample_values "#ff00800000" 0x1c) false None
                   (after (new0 ZwaveColorLight
                             (accepting_node "0086" "0001")
                             (sample_values "#ff00800000" 0x1c) false None))
                   [Call_turn_on (mkKwargs None None (Some (Py.Int 400)));
                    Call_update_properties; Call_turn_off]
                   _)
            _);
    vm_compute; reflexivity.
Defined.

(** The colour (255, 16, 128) through an RGBW light with both channels. *)
Lemma rgbw_round_trip_witness :
  let self :=
    sample_entity bulb (sample_values "#0000000000" 0x1f) None (Some 0x1f) in
  let written :=
    after (turn_on0 (mkKwargs None (Some [255; 16; 128]) None) self) in
  color_data written = Some "#ef00701000"%string
  /\ exists self',
       decode0 written = Ok tt self'
       /\ rgb_color self' = Some [255; 16; 128].
Proof.
  cbv zeta.
  apply (rgbw_round_trip 500 154 sample_kelvin sample_temperature_rgb
           sample_rgb_to_rgbw sample_rgbw_to_rgb
           (mkKwargs None (Some [255; 16; 128]) None)
           (sample_entity bulb (sample_values "#0000000000" 0x1f) None
              (Some 0x1f))
           (mkValue 8 "#0000000000"%string) (mkValue 9 0x1f)
           (Py.Float (Py.float_of_Z 129), STATE_ON)
           255 16 128 239 0 112 16);
    try lia; vm_compute; reflexivity.
Defined.

(** A colour temperature of 400 mireds through a ZW098 bulb. *)
Lemma zw098_color_temp_round_trip_witness :
  let self :=
    sample_entity bulb (sample_values "#ff00800000" 0x1f) (Some 1)
      (Some 0x1f) in
  exists self',
    decode0 (after (turn_on0 (mkKwargs None None (Some (Py.Int 400))) self))
    = Ok tt self'
    /\ color_temp self' = Some (TEMP_WARM_HASS 500 154)
    /\ rgb_color self' = Some [255; 147; 41].
Proof.
  cbv zeta.
  apply (zw098_color_temp_round_trip 500 154 sample_kelvin
           sample_temperature_rgb sample_rgb_to_rgbw sample_rgbw_to_rgb
           (mkKwargs None None (Some (Py.Int 400)))
           (sample_entity bulb (sample_values "#ff00800000" 0x1f) (Some 1)
              (Some 0x1f))
           (Py.Int 400) (mkValue 8 "#ff00800000"%string) (mkValue 9 0x1f)
           (Py.Float (Py.float_of_Z 129), STATE_ON)
           [255; 147; 41] [255; 147; 41]);
    vm_compute; reflexivity.
Defined.

(** The colour (255, 0, 128) through a ZW098 bulb. *)
Lemma zw098_rgb_round_trip_witness :
  let self :=
    sample_entity bulb (sample_values "#000000ff00" 0x1f) (Some 1) None in
  let written :=
    after (turn_on0 (mkKwargs None (Some [255; 0; 128]) None) self) in
  color_data written = Some "#ff00800000"%string
  /\ exists self',
       decode0 written = Ok tt self'
       /\ color_temp self' = Some (TEMP_MID_HASS 500 154)
       /\ rgb_color self' = Some [255; 0; 128].
Proof.
  cbv zeta.
  apply (zw098_rgb_round_trip 500 154 sample_kelvin sample_temperature_rgb
           sample_rgb_to_rgbw sample_rgbw_to_rgb
           (mkKwargs None (Some [255; 0; 128]) None)
           (sample_entity bulb (sample_values "#000000ff00" 0x1f) (Some 1)
              None)
           (mkValue 8 "#000000ff00"%string) (mkValue 9 0x1f)
           (Py.Float (Py.float_of_Z 129), STATE_ON) 255 0 128);
    try lia; vm_compute; reflexivity.
Defined.

(** A ZW098 bulb on a node with the colour-switch class (0x33), with the
    feature flags 1, 2 and 16 of the light component: bit 1, the
    colour-temperature flag, is set. *)
Lemma created_device_features_witness :
  let created :=
    get_device0 (fun c => c =? 0x33) bulb (sample_values "#ff00800000" 0x1f)
      (mkNodeConfig true (Some 2)) in
  Z.testbit (supported_features 1 2 16 (fst created) (after (snd created))) 1
  = true.
Proof.
  cbv zeta.
  refine (proj2 (proj2 (proj2 (proj2
            (created_device_features 500 154 sample_kelvin
               sample_temperature_rgb sample_rgbw_to_rgb 1 2 16 0x33
               (fun c => c =? 0x33) bulb (sample_values "#ff00800000" 0x1f)
               (mkNodeConfig true (Some 2))
               (fst (get_device0 (fun c => c =? 0x33) bulb
                       (sample_values "#ff00800000" 0x1f)
                       (mkNodeConfig true (Some 2))))
               (after (snd (get_device0 (fun c => c =? 0x33) bulb
                              (sample_values "#ff00800000" 0x1f)
                              (mkNodeConfig true (Some 2)))))
               _))))
            0x86 0x62 _ _ _ _ 1);
    vm_compute; reflexivity.
Defined.

(** Three value changes in a row on an entity with delayed refresh: the
    third timer refreshes once. *)
Lemma burst_refreshes_once_witness :
  let s :=
    set_refresh_value true
      (sample_entity bulb (sample_values "#ff00800000" 0x1f) None None) in
  let w :=
    happen_all update_properties0 ZwaveColorLight
      [Value_changed; Value_changed; Value_changed] (initial_world s) in
  timer_fires 2 w = mkWorld (set_refreshing true s) (Some 2%nat) [] 3 1.
Proof.
  cbv zeta.
  refine (proj1 (proj2 (proj2 (proj2
            (burst_refreshes_once update_properties0 ZwaveColorLight
               (set_refresh_value true
                  (sample_entity bulb (sample_values "#ff00800000" 0x1f)
                     None None))
               2 _ _)))));
    reflexivity.
Defined.
